(** * Verification of the [Date] class of [main.py]

    A shallow embedding of the class [Date] (validated construction,
    comparison, day arithmetic through the host module [datetime], and the
    Ukrainian renderings) and the properties of its specification.

    Conventions of the embedding:
    - a Python [int] is a [Z]; [%] and [//] with a positive divisor are
      [Z.modulo] and [Z.div] (both floor);
    - a Python [str] is a [string] holding the UTF-8 bytes of its text;
    - an operation that can raise or return [NotImplemented] yields a
      [result]. *)

From Stdlib Require Import ZArith Lia List Bool String Ascii.
From Stdlib Require Import DecimalString DecimalFacts DecimalZ.
Import ListNotations.

Local Open Scope string_scope.
Local Open Scope Z_scope.

(** ** Python values, exceptions, results *)

(** The argument values the constructor tells apart.  [bool] is a subclass of
    [int] in Python, so [isinstance(True, int)] holds. *)
Inductive pyval : Type :=
| PyInt (z : Z)
| PyBool (b : bool)
| PyFloat (mantissa exponent : Z)
| PyStr (s : string)
| PyNone.

(** The instances of [int]: genuine integers and the two booleans. *)
Inductive pyint : Type :=
| PInt (z : Z)
| PBool (b : bool).

(** The integer an [int] instance stands for in comparisons and arithmetic
    ([True == 1], [False == 0]). *)
Definition int_val (x : pyint) : Z :=
  match x with
  | PInt z => z
  | PBool b => Z.b2z b
  end.

(** [isinstance(x, int)], with the downcast when it holds. *)
Definition as_int (v : pyval) : option pyint :=
  match v with
  | PyInt z => Some (PInt z)
  | PyBool b => Some (PBool b)
  | PyFloat _ _ | PyStr _ | PyNone => None
  end.

Definition isinstance_int (v : pyval) : bool :=
  match as_int v with Some _ => true | None => false end.

(** The exception classes that occur.  [OverflowError] derives from
    [ArithmeticError], not from [ValueError]. *)
Inductive exn_class : Type :=
| TypeError
| ValueError
| OverflowError
| IndexError.

Record exn : Type := mkExn { exn_cls : exn_class; exn_msg : string }.

Inductive result (A : Type) : Type :=
| Ok (a : A)
| NotImplemented
| Raise (e : exn).

Arguments Ok {A} a.
Arguments NotImplemented {A}.
Arguments Raise {A} e.

Definition bind {A B : Type} (r : result A) (k : A -> result B) : result B :=
  match r with
  | Ok a => k a
  | NotImplemented => NotImplemented
  | Raise e => Raise e
  end.

Notation "x <- r ;; k" := (bind r (fun x => k))
  (at level 61, r at next level, right associativity).

(** [r] raises an exception of class [c]. *)
Definition raises {A : Type} (r : result A) (c : exn_class) : Prop :=
  exists msg, r = Raise (mkExn c msg).

(** [r] raises some exception. *)
Definition fails {A : Type} (r : result A) : Prop :=
  exists e, r = Raise e.

(** ** Text formatting *)

(** The decimal numeral of an integer, with a minus sign when negative. *)
Definition decimal (z : Z) : string := NilZero.string_of_int (Z.to_int z).

(** CPython converts an integer to decimal text only up to
    [sys.int_info.default_max_str_digits] digits, 4300 unless the interpreter
    is told otherwise, and raises a [ValueError] for a longer one. *)
Definition int_max_str_digits : Z := 4300.

(** The least magnitude that has too many digits. *)
Definition str_bound : Z := 10 ^ int_max_str_digits.

Definition digit_limit_error : exn :=
  mkExn ValueError
        "Exceeds the limit (4300 digits) for integer string conversion; use sys.set_int_max_str_digits() to increase the limit".

(** [str(n)] for an integer. *)
Definition str_Z (z : Z) : result string :=
  if Z.abs z <? str_bound then Ok (decimal z) else Raise digit_limit_error.

(** [str(x)] and [f"{x}"] for an [int] instance; a boolean prints its name. *)
Definition str_int (x : pyint) : result string :=
  match x with
  | PInt z => str_Z z
  | PBool true => Ok "True"
  | PBool false => Ok "False"
  end.

Fixpoint zeros (n : nat) : string :=
  match n with
  | O => ""
  | S k => String "0" (zeros k)
  end.

(** [f"{x:02d}"]: decimal digits, zero-padded after the sign to a minimum
    width of two characters.  The [d] presentation type formats a boolean
    as the integer it is. *)
Definition format_02d (x : pyint) : result string :=
  let z := int_val x in
  digits <- str_Z (Z.abs z) ;;
  let sign := if z <? 0 then "-" else "" in
  let used := (String.length sign + String.length digits)%nat in
  Ok (sign ++ zeros (2 - used) ++ digits).

(** [xs[i]] on a list: negative indices count from the end. *)
Definition getitem {A : Type} (xs : list A) (i : Z) : result A :=
  let len := Z.of_nat (List.length xs) in
  let j := if i <? 0 then i + len else i in
  if (j <? 0) || (len <=? j) then Raise (mkExn IndexError "list index out of range")
  else match nth_error xs (Z.to_nat j) with
       | Some x => Ok x
       | None => Raise (mkExn IndexError "list index out of range")
       end.

(** ** The class [Date]: construction *)

Record Date : Type := mkDate { _day : pyint; _month : pyint; _year : pyint }.

Definition _is_leap_year (year : Z) : bool :=
  (year mod 4 =? 0) && (negb (year mod 100 =? 0) || (year mod 400 =? 0)).

(** [x in [4, 6, 9, 11]]. *)
Definition in_list (x : Z) (xs : list Z) : bool := existsb (Z.eqb x) xs.

(** [Date.__init__]. *)
Definition __init__ (day month year : pyval) : result Date :=
  match as_int day, as_int month, as_int year with
  | Some d, Some m, Some y =>
      if int_val y <=? 0 then
        Raise (mkExn ValueError "Рік повинен бути додатнім.")
      else if (int_val m <? 1) || (int_val m >? 12) then
        Raise (mkExn ValueError "Місяць повинен бути в діапазоні 1-12.")
      else if int_val d <? 1 then
        Raise (mkExn ValueError "День повинен бути додатнім.")
      else
        let max_day :=
          if int_val m =? 2 then
            (if _is_leap_year (int_val y) then 29 else 28)
          else if in_list (int_val m) [4; 6; 9; 11] then 30
          else 31 in
        if int_val d >? max_day then
          sm <- str_int m ;;
          sd <- str_int d ;;
          Raise (mkExn ValueError
                   ("У " ++ sm ++ "-му місяці не може бути " ++ sd ++ " днів."))
        else Ok (mkDate d m y)
  | _, _, _ =>
      Raise (mkExn TypeError "День, місяць і рік повинні бути цілими числами.")
  end.

(** Construction from three genuine integers. *)
Definition create (day month year : Z) : result Date :=
  __init__ (PyInt day) (PyInt month) (PyInt year).

(** ** The host module [datetime]

    [main.py] delegates day counting to Python's [datetime].  The module is
    not part of the repository; the model follows the reference
    implementation of CPython ([Lib/_pydatetime.py]), function by function.
    Its [assert] statements are left out: they hold at every call made here.

    CPython loads the C accelerator [_datetime] when it is there.  It
    computes the same dates and raises exceptions of the same classes, with
    other messages, but for one case: its constructor first converts the three
    fields to C [int]s, and raises an [OverflowError] for a field that does
    not fit.  [implementation] selects between the two. *)
Module datetime.

Inductive implementation : Type :=
| pure_python
| accelerated.

(** The conversion of an argument by the format ["i"] of
    [PyArg_ParseTuple]. *)
Definition as_C_int (z : Z) : result Z :=
  if z <? -2147483648 then
    Raise (mkExn OverflowError "signed integer is less than minimum")
  else if z >? 2147483647 then
    Raise (mkExn OverflowError "signed integer is greater than maximum")
  else Ok z.

Definition MINYEAR : Z := 1.
Definition MAXYEAR : Z := 9999.
Definition _MAXORDINAL : Z := 3652059.

Definition _DAYS_IN_MONTH : list Z :=
  [-1; 31; 28; 31; 30; 31; 30; 31; 31; 30; 31; 30; 31].

(** The table built by the loop
    [for dim in _DAYS_IN_MONTH[1:]: _DAYS_BEFORE_MONTH.append(dbm); dbm += dim]. *)
Definition _DAYS_BEFORE_MONTH : list Z :=
  fst (fold_left (fun '(tbl, dbm) dim => (tbl ++ [dbm], dbm + dim)%list)
                 (tl _DAYS_IN_MONTH) ([-1], 0)).

(** [table[i]] for an index the caller keeps inside the table. *)
Definition lookup (table : list Z) (i : Z) : Z := nth (Z.to_nat i) table 0.

Definition _is_leap (year : Z) : bool :=
  (year mod 4 =? 0) && (negb (year mod 100 =? 0) || (year mod 400 =? 0)).

Definition _days_before_year (year : Z) : Z :=
  let y := year - 1 in
  y * 365 + y / 4 - y / 100 + y / 400.

Definition _days_in_month (year month : Z) : Z :=
  if (month =? 2) && _is_leap year then 29
  else lookup _DAYS_IN_MONTH month.

Definition _days_before_month (year month : Z) : Z :=
  lookup _DAYS_BEFORE_MONTH month + Z.b2z ((month >? 2) && _is_leap year).

Definition _ymd2ord (year month day : Z) : Z :=
  _days_before_year year + _days_before_month year month + day.

Definition _DI400Y : Z := _days_before_year 401.
Definition _DI100Y : Z := _days_before_year 101.
Definition _DI4Y : Z := _days_before_year 5.

Definition _ord2ymd (n : Z) : Z * Z * Z :=
  let n := n - 1 in
  let n400 := n / _DI400Y in
  let n := n mod _DI400Y in
  let year := n400 * 400 + 1 in
  let n100 := n / _DI100Y in
  let n := n mod _DI100Y in
  let n4 := n / _DI4Y in
  let n := n mod _DI4Y in
  let n1 := n / 365 in
  let n := n mod 365 in
  let year := year + (n100 * 100 + n4 * 4 + n1) in
  if (n1 =? 4) || (n100 =? 4) then (year - 1, 12, 31)
  else
    let leapyear := (n1 =? 3) && (negb (n4 =? 24) || (n100 =? 3)) in
    let month := Z.shiftr (n + 50) 5 in
    let preceding :=
      lookup _DAYS_BEFORE_MONTH month + Z.b2z ((month >? 2) && leapyear) in
    let '(month, preceding) :=
      if preceding >? n then
        (month - 1,
         preceding - (lookup _DAYS_IN_MONTH (month - 1)
                      + Z.b2z ((month - 1 =? 2) && leapyear)))
      else (month, preceding) in
    let n := n - preceding in
    (year, month, n + 1).

(** The class [date]. *)
Record date : Type := mkdate { year : Z; month : Z; day : Z }.

(** [_check_date_fields] followed by the allocation in [date.__new__]. *)
Definition _check_date_fields (year month day : Z) : result date :=
  if negb ((MINYEAR <=? year) && (year <=? MAXYEAR)) then
    Raise (mkExn ValueError "year must be in 1..9999")
  else if negb ((1 <=? month) && (month <=? 12)) then
    Raise (mkExn ValueError "month must be in 1..12")
  else
    let dim := _days_in_month year month in
    if negb ((1 <=? day) && (day <=? dim)) then
      Raise (mkExn ValueError ("day must be in 1.." ++ decimal dim))
    else Ok (mkdate year month day).

(** [date(year, month, day)]. *)
Definition date_new (impl : implementation) (year month day : Z)
  : result date :=
  match impl with
  | pure_python => _check_date_fields year month day
  | accelerated =>
      y <- as_C_int year ;;
      m <- as_C_int month ;;
      d <- as_C_int day ;;
      _check_date_fields y m d
  end.

Definition toordinal (d : date) : Z := _ymd2ord (year d) (month d) (day d).

Definition fromordinal (n : Z) : result date :=
  let '(y, m, d) := _ord2ymd n in _check_date_fields y m d.

Definition weekday (d : date) : Z := (toordinal d + 6) mod 7.

(** The class [timedelta], of which only the day count is used. *)
Record timedelta : Type := mktimedelta { days : Z }.

(** [timedelta(days=d)] for an integer [d].  Out of range the accelerated
    module raises an [OverflowError] for every [d]; so does the pure-Python
    one, but for a [d] of more than 4300 digits, where the digit limit
    refuses to build its message.  That case is modelled as the accelerated
    module has it. *)
Definition timedelta_new (d : Z) : result timedelta :=
  if Z.abs d >? 999999999 then
    Raise (mkExn OverflowError ("timedelta # of days is too large: " ++ decimal d))
  else Ok (mktimedelta d).

(** [date.__add__] with a [timedelta]. *)
Definition date_add (self : date) (other : timedelta) : result date :=
  let o := toordinal self + days other in
  if (0 <? o) && (o <=? _MAXORDINAL) then fromordinal o
  else Raise (mkExn OverflowError "result out of range").

(** [date.__sub__] with a [date]. *)
Definition date_sub (self other : date) : result timedelta :=
  let days1 := toordinal self in
  let days2 := toordinal other in
  timedelta_new (days1 - days2).

End datetime.

(** ** The class [Date]: comparison, arithmetic, rendering *)

(** What the right operand of an operator can be. *)
Inductive pyobj : Type :=
| ODate (d : Date)
| OVal (v : pyval).

(** Python's comparison of tuples of integers: equal when they agree
    element by element; ordered by the first position where they differ. *)
Fixpoint tuple_eq (a b : list Z) : bool :=
  match a, b with
  | [], [] => true
  | x :: a', y :: b' => (x =? y) && tuple_eq a' b'
  | _, _ => false
  end.

Fixpoint tuple_lt (a b : list Z) : bool :=
  match a, b with
  | x :: a', y :: b' => if x =? y then tuple_lt a' b' else x <? y
  | [], _ :: _ => true
  | _, [] => false
  end.

Fixpoint tuple_gt (a b : list Z) : bool :=
  match a, b with
  | x :: a', y :: b' => if x =? y then tuple_gt a' b' else x >? y
  | _ :: _, [] => true
  | [], _ => false
  end.

Definition day_of (self : Date) : Z := int_val (_day self).
Definition month_of (self : Date) : Z := int_val (_month self).
Definition year_of (self : Date) : Z := int_val (_year self).

Definition __str__ (self : Date) : result string :=
  dd <- format_02d (_day self) ;;
  mm <- format_02d (_month self) ;;
  yyyy <- str_int (_year self) ;;
  Ok (dd ++ "." ++ mm ++ "." ++ yyyy).

Definition __eq__ (self : Date) (other : pyobj) : result bool :=
  match other with
  | ODate o =>
      Ok (tuple_eq [day_of self; month_of self; year_of self]
                   [day_of o; month_of o; year_of o])
  | OVal _ => NotImplemented
  end.

Definition __lt__ (self : Date) (other : pyobj) : result bool :=
  match other with
  | ODate o =>
      Ok (tuple_lt [year_of self; month_of self; day_of self]
                   [year_of o; month_of o; day_of o])
  | OVal _ => NotImplemented
  end.

Definition __gt__ (self : Date) (other : pyobj) : result bool :=
  match other with
  | ODate o =>
      Ok (tuple_gt [year_of self; month_of self; day_of self]
                   [year_of o; month_of o; day_of o])
  | OVal _ => NotImplemented
  end.

(** [datetime.date(self._year, self._month, self._day)]. *)
Definition to_date (impl : datetime.implementation) (self : Date)
  : result datetime.date :=
  datetime.date_new impl (year_of self) (month_of self) (day_of self).

Definition __sub__ (impl : datetime.implementation) (self : Date)
           (other : pyobj) : result Z :=
  match other with
  | ODate o =>
      d1 <- to_date impl self ;;
      d2 <- to_date impl o ;;
      td <- datetime.date_sub d1 d2 ;;
      Ok (datetime.days td)
  | OVal _ => NotImplemented
  end.

Definition __add__ (impl : datetime.implementation) (self : Date)
           (days : pyval) : result Date :=
  match as_int days with
  | Some n =>
      d0 <- to_date impl self ;;
      td <- datetime.timedelta_new (int_val n) ;;
      d <- datetime.date_add d0 td ;;
      __init__ (PyInt (datetime.day d)) (PyInt (datetime.month d))
               (PyInt (datetime.year d))
  | None => NotImplemented
  end.

Definition is_leap_year (self : Date) : bool := _is_leap_year (year_of self).

Definition months : list string :=
  ["січня"; "лютого"; "березня"; "квітня"; "травня"; "червня";
   "липня"; "серпня"; "вересня"; "жовтня"; "листопада"; "грудня"].

Definition month_name (self : Date) : result string :=
  d <- str_int (_day self) ;;
  m <- getitem months (month_of self - 1) ;;
  y <- str_int (_year self) ;;
  Ok (d ++ " " ++ m ++ " " ++ y ++ " рік").

Definition days : list string :=
  ["Понеділок"; "Вівторок"; "Середа";
   "Четвер"; "П’ятниця"; "Субота"; "Неділя"].

Definition day_of_week (impl : datetime.implementation) (self : Date)
  : result string :=
  d <- to_date impl self ;;
  getitem days (datetime.weekday d).

(** ** The calendar of the specification *)

(** The Gregorian leap-year rule, as divisibility. *)
Definition leap_rule (year : Z) : Prop :=
  (4 | year) /\ (~ (100 | year) \/ (400 | year)).

(** The length of a month, in the words of the specification. *)
Definition max_day_for (month year : Z) : Z :=
  match month with
  | 2 => if _is_leap_year year then 29 else 28
  | 4 | 6 | 9 | 11 => 30
  | _ => 31
  end.

(** The triples (day, month, year) the specification admits. *)
Definition valid_triple (day month year : Z) : Prop :=
  1 <= year /\ 1 <= month <= 12 /\ 1 <= day <= max_day_for month year.

(** A valid [Date]: one the constructor returns. *)
Definition valid_Date (a : Date) : Prop :=
  valid_triple (day_of a) (month_of a) (year_of a).

(** The calendar day after (year, month, day). *)
Definition tomorrow (t : Z * Z * Z) : Z * Z * Z :=
  let '(y, m, d) := t in
  if d <? max_day_for m y then (y, m, d + 1)
  else if m <? 12 then (y, m + 1, 1)
  else (y + 1, 1, 1).

Definition ymd (a : Date) : Z * Z * Z := (year_of a, month_of a, day_of a).

(** [k] days after [t], by stepping through the calendar one day at a time. *)
Fixpoint days_after (k : nat) (t : Z * Z * Z) : Z * Z * Z :=
  match k with
  | O => t
  | S k' => tomorrow (days_after k' t)
  end.

(** The number of the day in the proleptic Gregorian calendar, 0001-01-01
    being day 1. *)
Definition ordinal (a : Date) : Z :=
  datetime._ymd2ord (year_of a) (month_of a) (day_of a).

(** Validity and day number of a triple (year, month, day). *)
Definition valid_ymd (t : Z * Z * Z) : Prop :=
  let '(y, m, d) := t in valid_triple d m y.

Definition ord_ymd (t : Z * Z * Z) : Z :=
  let '(y, m, d) := t in datetime._ymd2ord y m d.

(** The chronological order on (year, month, day), year first. *)
Definition chrono_lt (a b : Date) : Prop :=
  year_of a < year_of b
  \/ (year_of a = year_of b
      /\ (month_of a < month_of b
          \/ (month_of a = month_of b /\ day_of a < day_of b))).

(** The character of a decimal digit. *)
Definition digit (z : Z) : ascii := ascii_of_nat (48 + Z.to_nat z).

(** A number below 100 written with exactly two digits. *)
Definition two_digits (z : Z) : string :=
  String (digit (z / 10)) (String (digit (z mod 10)) "").

(** What [str] prints for a field: the numeral of an integer, the name of a
    boolean. *)
Definition text_of (x : pyint) : string :=
  match x with
  | PInt z => decimal z
  | PBool true => "True"
  | PBool false => "False"
  end.

(** A field that [str] can print: a boolean, or an integer within the digit
    limit. *)
Definition printable (x : pyint) : Prop :=
  match x with
  | PInt z => Z.abs z < str_bound
  | PBool _ => True
  end.

(** [s] is the decimal numeral of [z], without leading zeros. *)
Definition decimal_of (s : string) (z : Z) : Prop :=
  exists d : Decimal.int,
    s = NilZero.string_of_int d /\ Z.of_int d = z /\ Decimal.norm d = d.

(** The class of the exception that [datetime.date] raises for a year above
    9999, the other two fields being small. *)
Definition year_error (impl : datetime.implementation) (y : Z) : exn_class :=
  match impl with
  | datetime.pure_python => ValueError
  | datetime.accelerated =>
      if y >? 2147483647 then OverflowError else ValueError
  end.

(** The last steps of [datetime._ord2ymd], which find month and day from the
    zero-based day of the year, under a name of their own for the proofs. *)
Definition month_day (leapyear : bool) (n : Z) : Z * Z :=
  let month := Z.shiftr (n + 50) 5 in
  let preceding :=
    datetime.lookup datetime._DAYS_BEFORE_MONTH month
    + Z.b2z ((month >? 2) && leapyear) in
  let '(month, preceding) :=
    if preceding >? n then
      (month - 1,
       preceding - (datetime.lookup datetime._DAYS_IN_MONTH (month - 1)
                    + Z.b2z ((month - 1 =? 2) && leapyear)))
    else (month, preceding) in
  (month, n - preceding + 1).

(** The check that [month_day] lands on day [n + 1] of the year. *)
Definition month_day_ok (leapyear : bool) (n : Z) : bool :=
  let '(m, d) := month_day leapyear n in
  let dim := if (m =? 2) && leapyear then 29
             else datetime.lookup datetime._DAYS_IN_MONTH m in
  let dbm := datetime.lookup datetime._DAYS_BEFORE_MONTH m
             + Z.b2z ((m >? 2) && leapyear) in
  (1 <=? m) && (m <=? 12) && (1 <=? d) && (d <=? dim) && (dbm + d =? n + 1).

(** The Python value of an [int] instance, to pass a stored field back as
    an argument. *)
Definition val_of (x : pyint) : pyval :=
  match x with
  | PInt z => PyInt z
  | PBool b => PyBool b
  end.

(** A [Date] whose three fields are genuine integers. *)
Definition from_ints (a : Date) : Prop :=
  a = mkDate (PInt (day_of a)) (PInt (month_of a)) (PInt (year_of a)).

(** [a == b] answers [True]. *)
Definition same_date (a b : Date) : Prop := __eq__ a (ODate b) = Ok true.

(** ** Facts about the day count of [datetime] *)

(** Splits a month known to lie in 1..12 into its twelve values. *)
Ltac month_cases m :=
  let H := fresh "Hm" in
  assert (m = 1 \/ m = 2 \/ m = 3 \/ m = 4 \/ m = 5 \/ m = 6 \/
          m = 7 \/ m = 8 \/ m = 9 \/ m = 10 \/ m = 11 \/ m = 12) as H by lia;
  repeat (destruct H as [H | H]); subst m.

(** Evaluates the table look-ups and the comparisons between literals. *)
Ltac eval_bool b :=
  let v := eval vm_compute in b in
  match v with
  | true => change b with true
  | false => change b with false
  end.

Ltac tables :=
  repeat match goal with
         | |- context [datetime.lookup ?t ?m] =>
             let v := eval vm_compute in (datetime.lookup t m) in
             change (datetime.lookup t m) with v
         | |- context [Z.gtb ?a ?b] => eval_bool (Z.gtb a b)
         | |- context [Z.eqb ?a ?b] => eval_bool (Z.eqb a b)
         end;
  cbn [andb orb negb Z.b2z].

Section DayCount.

Import datetime.

#[local] Arguments _is_leap : simpl never.
#[local] Arguments _is_leap_year : simpl never.

Lemma is_leap_same (y : Z) : _is_leap y = _is_leap_year y.
Proof. reflexivity. Qed.

Lemma days_before_year_succ (y : Z) :
  _days_before_year (y + 1) = _days_before_year y + 365 + Z.b2z (_is_leap y).
Proof.
  unfold _days_before_year, _is_leap.
  replace (y + 1 - 1) with y by lia.
  destruct (y mod 4 =? 0) eqn:E4; destruct (y mod 100 =? 0) eqn:E100;
    destruct (y mod 400 =? 0) eqn:E400; cbn [negb orb andb Z.b2z];
    rewrite ?Z.eqb_eq, ?Z.eqb_neq in *;
    Z.div_mod_to_equations; lia.
Qed.

Lemma days_before_year_mono (y y' : Z) :
  y <= y' -> _days_before_year y <= _days_before_year y'.
Proof.
  unfold _days_before_year. intros H.
  Z.div_mod_to_equations. lia.
Qed.

Lemma days_in_month_spec (y m : Z) :
  1 <= m <= 12 -> _days_in_month y m = max_day_for m y.
Proof.
  intros H. month_cases m; reflexivity.
Qed.

Lemma days_before_month_next (y m : Z) :
  1 <= m < 12 ->
  _days_before_month y (m + 1) = _days_before_month y m + _days_in_month y m.
Proof.
  intros H. month_cases m; try lia;
    unfold _days_before_month, _days_in_month; tables;
    destruct (_is_leap y); reflexivity.
Qed.

Lemma days_before_month_december (y : Z) :
  _days_before_month y 12 + _days_in_month y 12 = 365 + Z.b2z (_is_leap y).
Proof.
  unfold _days_before_month, _days_in_month; tables.
  destruct (_is_leap y); reflexivity.
Qed.

(** The day of the year lies between 1 and the length of the year. *)
Lemma day_of_year_bounds (y m d : Z) :
  1 <= m <= 12 -> 1 <= d <= _days_in_month y m ->
  1 <= _days_before_month y m + d <= 365 + Z.b2z (_is_leap y).
Proof.
  intros H. month_cases m; unfold _days_before_month, _days_in_month; tables;
    destruct (_is_leap y); tables; lia.
Qed.

(** Within one year the day of the year determines month and day. *)
Lemma day_of_year_inj (y m d m' d' : Z) :
  1 <= m <= 12 -> 1 <= d <= _days_in_month y m ->
  1 <= m' <= 12 -> 1 <= d' <= _days_in_month y m' ->
  _days_before_month y m + d = _days_before_month y m' + d' ->
  m = m' /\ d = d'.
Proof.
  intros H H'. revert H'. month_cases m; intros Hd H'; revert Hd;
    month_cases m'; unfold _days_before_month, _days_in_month; tables;
    destruct (_is_leap y); tables; lia.
Qed.

(** [_ymd2ord] is one-to-one on the valid triples. *)
Lemma ymd2ord_inj (y m d y' m' d' : Z) :
  valid_triple d m y -> valid_triple d' m' y' ->
  _ymd2ord y m d = _ymd2ord y' m' d' ->
  y = y' /\ m = m' /\ d = d'.
Proof.
  intros (Hy & Hm & Hd) (Hy' & Hm' & Hd') E.
  rewrite <- days_in_month_spec in Hd, Hd' by assumption.
  pose proof (day_of_year_bounds y m d Hm Hd) as B.
  pose proof (day_of_year_bounds y' m' d' Hm' Hd') as B'.
  unfold _ymd2ord in E.
  assert (y = y') as ->.
  { destruct (Z.lt_trichotomy y y') as [L | [L | L]]; [ | assumption | ].
    - pose proof (days_before_year_succ y).
      pose proof (days_before_year_mono (y + 1) y'). lia.
    - pose proof (days_before_year_succ y').
      pose proof (days_before_year_mono (y' + 1) y). lia. }
  split; [reflexivity | ].
  apply (day_of_year_inj y'); try assumption. lia.
Qed.

(** One calendar day further is one more in the day count. *)
Lemma ymd2ord_tomorrow (y m d : Z) :
  valid_triple d m y ->
  let '(y', m', d') := tomorrow (y, m, d) in
  valid_triple d' m' y' /\ _ymd2ord y' m' d' = _ymd2ord y m d + 1.
Proof.
  intros (Hy & Hm & Hd). unfold tomorrow.
  destruct (d <? max_day_for m y) eqn:E1;
    [apply Z.ltb_lt in E1 | apply Z.ltb_ge in E1].
  - split; [unfold valid_triple; lia | unfold _ymd2ord; lia].
  - assert (d = _days_in_month y m) as Ed
        by (rewrite days_in_month_spec by assumption; lia).
    destruct (m <? 12) eqn:E2; [apply Z.ltb_lt in E2 | apply Z.ltb_ge in E2].
    + split.
      * unfold valid_triple. repeat split; try lia.
        assert (1 <= m + 1 <= 12) as Hm1 by lia. revert Hm1.
        generalize (m + 1). intros k Hk. month_cases k; cbn; try lia.
        destruct (_is_leap_year y); lia.
      * unfold _ymd2ord. rewrite days_before_month_next by lia. lia.
    + assert (m = 12) as -> by lia.
      split.
      * unfold valid_triple. cbn. lia.
      * unfold _ymd2ord. rewrite days_before_year_succ.
        pose proof (days_before_month_december y).
        unfold _days_before_month at 1. tables. lia.
Qed.

Lemma month_day_all_ok (leap : bool) :
  forallb (month_day_ok leap) (map Z.of_nat (seq 0 365)) = true.
Proof. destruct leap; vm_compute; reflexivity. Qed.

Lemma month_day_correct (y r : Z) :
  0 <= r < 365 ->
  let '(m, d) := month_day (_is_leap y) r in
  1 <= m <= 12 /\ 1 <= d <= _days_in_month y m /\
  _days_before_month y m + d = r + 1.
Proof.
  intros Hr.
  pose proof (month_day_all_ok (_is_leap y)) as A.
  rewrite forallb_forall in A. specialize (A r).
  assert (In r (map Z.of_nat (seq 0 365))) as I.
  { replace r with (Z.of_nat (Z.to_nat r)) by lia.
    apply in_map, in_seq. lia. }
  apply A in I. unfold month_day_ok in I.
  destruct (month_day (_is_leap y) r) as [m d].
  rewrite !andb_true_iff in I. destruct I as ((((I1 & I2) & I3) & I4) & I5).
  unfold _days_in_month, _days_before_month. lia.
Qed.

(** The zero-based day count splits into 400-, 100-, 4- and 1-year
    cycles exactly as [_ord2ymd] computes them. *)
Lemma ord2ymd_eq (n : Z) :
  _ord2ymd n =
    let N := n - 1 in
    let a := N / 146097 in
    let r1 := N mod 146097 in
    let b := r1 / 36524 in
    let r2 := r1 mod 36524 in
    let c := r2 / 1461 in
    let r3 := r2 mod 1461 in
    let e := r3 / 365 in
    let r := r3 mod 365 in
    let y := a * 400 + 1 + (b * 100 + c * 4 + e) in
    if (e =? 4) || (b =? 4) then (y - 1, 12, 31)
    else
      let '(m, d) :=
        month_day ((e =? 3) && (negb (c =? 24) || (b =? 3))) r in
      (y, m, d).
Proof.
  unfold _ord2ymd, month_day.
  change _DI400Y with 146097. change _DI100Y with 36524.
  change _DI4Y with 1461. cbv zeta.
  destruct (_ || _); [reflexivity | ].
  destruct (_ >? _); reflexivity.
Qed.

Lemma cycles_days_before_year (a b c e : Z) :
  0 <= b <= 3 -> 0 <= c <= 24 -> 0 <= e <= 3 ->
  _days_before_year (a * 400 + 1 + (b * 100 + c * 4 + e))
  = 146097 * a + 36524 * b + 1461 * c + 365 * e.
Proof.
  intros Hb Hc He. unfold _days_before_year.
  Z.div_mod_to_equations. lia.
Qed.

Lemma cycles_is_leap (a b c e : Z) :
  0 <= b <= 3 -> 0 <= c <= 24 -> 0 <= e <= 3 ->
  _is_leap (a * 400 + 1 + (b * 100 + c * 4 + e))
  = (e =? 3) && (negb (c =? 24) || (b =? 3)).
Proof.
  intros Hb Hc He. unfold _is_leap.
  set (y := a * 400 + 1 + (b * 100 + c * 4 + e)).
  assert (y mod 4 = (e + 1) mod 4) as E4
      by (subst y; Z.div_mod_to_equations; lia).
  assert (y mod 100 = (c * 4 + e + 1) mod 100) as E100
      by (subst y; Z.div_mod_to_equations; lia).
  assert (y mod 400 = (b * 100 + c * 4 + e + 1) mod 400) as E400
      by (subst y; Z.div_mod_to_equations; lia).
  rewrite E4, E100, E400. clear E4 E100 E400 y.
  destruct (e =? 3) eqn:Ee; destruct (c =? 24) eqn:Ec;
    destruct (b =? 3) eqn:Eb; cbn [negb orb andb];
    rewrite ?Z.eqb_eq, ?Z.eqb_neq in *;
    rewrite ?andb_true_iff, ?andb_false_iff, ?orb_true_iff, ?orb_false_iff,
      ?negb_true_iff, ?negb_false_iff, ?Z.eqb_eq, ?Z.eqb_neq;
    Z.div_mod_to_equations; lia.
Qed.

(** [_ord2ymd] returns a valid triple whose day count is its argument. *)
Lemma ord2ymd_correct (n : Z) :
  1 <= n ->
  let '(y, m, d) := _ord2ymd n in
  valid_triple d m y /\ _ymd2ord y m d = n.
Proof.
  intros Hn. rewrite ord2ymd_eq. cbv zeta.
  assert (0 <= n - 1) as HN by lia.
  pose proof (Z.div_pos (n - 1) 146097 HN ltac:(lia)) as Ha.
  pose proof (Z.div_mod (n - 1) 146097 ltac:(lia)) as E1.
  pose proof (Z.mod_pos_bound (n - 1) 146097 ltac:(lia)) as B1.
  set (a := (n - 1) / 146097) in *. set (r1 := (n - 1) mod 146097) in *.
  pose proof (Z.div_mod r1 36524 ltac:(lia)) as E2.
  pose proof (Z.mod_pos_bound r1 36524 ltac:(lia)) as B2.
  set (b := r1 / 36524) in *. set (r2 := r1 mod 36524) in *.
  pose proof (Z.div_mod r2 1461 ltac:(lia)) as E3.
  pose proof (Z.mod_pos_bound r2 1461 ltac:(lia)) as B3.
  set (c := r2 / 1461) in *. set (r3 := r2 mod 1461) in *.
  pose proof (Z.div_mod r3 365 ltac:(lia)) as E4.
  pose proof (Z.mod_pos_bound r3 365 ltac:(lia)) as B4.
  set (e := r3 / 365) in *. set (r := r3 mod 365) in *.
  clearbody a r1 b r2 c r3 e r.
  assert (0 <= b <= 4) as Hb by lia.
  assert (0 <= c <= 24) as Hc by lia.
  assert (0 <= e <= 4) as He by lia.
  destruct ((e =? 4) || (b =? 4)) eqn:S.
  - (* the last day of a leap year that closes a cycle *)
    assert (exists b' c',
               0 <= b' <= 3 /\ 0 <= c' <= 24 /\ (c' = 24 -> b' = 3) /\
               a * 400 + 1 + (b * 100 + c * 4 + e) - 1
               = a * 400 + 1 + (b' * 100 + c' * 4 + 3) /\
               n = 146097 * a + 36524 * b' + 1461 * c' + 365 * 3 + 366)
      as (b' & c' & Hb' & Hc' & Hbc & -> & ->).
    { apply orb_true_iff in S. rewrite !Z.eqb_eq in S.
      destruct (Z.eq_dec b 4) as [Eb | Eb].
      - exists 3, 24. lia.
      - exists b, c. lia. }
    split.
    + unfold valid_triple. cbn [max_day_for]. lia.
    + unfold _ymd2ord, _days_before_month.
      rewrite cycles_days_before_year, cycles_is_leap by lia.
      tables.
      replace (negb (c' =? 24) || (b' =? 3)) with true.
      * cbn [Z.b2z]. lia.
      * symmetry.
        destruct (c' =? 24) eqn:E; [ | reflexivity].
        apply Z.eqb_eq in E. cbn [negb orb]. apply Z.eqb_eq. auto.
  - apply orb_false_iff in S. rewrite !Z.eqb_neq in S.
    rewrite <- (cycles_is_leap a) by lia.
    set (y := a * 400 + 1 + (b * 100 + c * 4 + e)).
    pose proof (month_day_correct y r B4) as M.
    destruct (month_day (_is_leap y) r) as [m d].
    destruct M as (Hm & Hd & Ed).
    split.
    + unfold valid_triple. rewrite <- days_in_month_spec by assumption.
      subst y. lia.
    + unfold _ymd2ord. subst y.
      rewrite cycles_days_before_year by lia.
      fold (a * 400 + 1 + (b * 100 + c * 4 + e)) in Ed. lia.
Qed.

(** [_ord2ymd] undoes [_ymd2ord] on the valid triples. *)
Lemma ord2ymd_ymd2ord (y m d : Z) :
  valid_triple d m y -> _ord2ymd (_ymd2ord y m d) = (y, m, d).
Proof.
  intros V.
  assert (1 <= _ymd2ord y m d) as P.
  { destruct V as (Hy & Hm & Hd).
    rewrite <- days_in_month_spec in Hd by assumption.
    pose proof (day_of_year_bounds y m d Hm Hd).
    pose proof (days_before_year_mono 1 y Hy) as M.
    change (_days_before_year 1) with 0 in M.
    unfold _ymd2ord. lia. }
  pose proof (ord2ymd_correct _ P) as C.
  destruct (_ord2ymd (_ymd2ord y m d)) as [[y' m'] d'].
  destruct C as (V' & E).
  destruct (ymd2ord_inj _ _ _ _ _ _ V' V E) as (-> & -> & ->).
  reflexivity.
Qed.

End DayCount.

(** ** Construction *)

Section Construction.

#[local] Arguments _is_leap_year : simpl never.

Lemma str_bound_large : 10000 <= str_bound.
Proof.
  unfold str_bound, int_max_str_digits. change 10000 with (10 ^ 4).
  apply Z.pow_le_mono_r; lia.
Qed.

Lemma str_Z_small (z : Z) : Z.abs z < str_bound -> str_Z z = Ok (decimal z).
Proof.
  intros H. unfold str_Z. destruct (Z.ltb_spec (Z.abs z) str_bound); [ | lia].
  reflexivity.
Qed.

Lemma str_Z_huge (z : Z) :
  str_bound <= Z.abs z -> str_Z z = Raise digit_limit_error.
Proof.
  intros H. unfold str_Z. destruct (Z.ltb_spec (Z.abs z) str_bound); [lia | ].
  reflexivity.
Qed.

Lemma str_int_printable (x : pyint) : printable x -> str_int x = Ok (text_of x).
Proof.
  destruct x as [z | [ | ]]; cbn [printable str_int text_of];
    [apply str_Z_small | reflexivity ..].
Qed.

(** [str] returns the text or refuses with the error of the digit limit. *)
Lemma str_int_cases (x : pyint) :
  str_int x = Ok (text_of x) \/ str_int x = Raise digit_limit_error.
Proof.
  destruct x as [z | [ | ]]; cbn [str_int text_of]; auto.
  unfold str_Z. destruct (_ <? _); auto.
Qed.

(** Building the message of a day beyond the month never returns: it ends in
    the [ValueError] of the message or in the one of the digit limit. *)
Lemma day_overflow_raises (m d : pyint) :
  raises (sm <- str_int m ;;
          sd <- str_int d ;;
          @Raise Date
            (mkExn ValueError
               ("У " ++ sm ++ "-му місяці не може бути " ++ sd ++ " днів.")))
         ValueError.
Proof.
  destruct (str_int_cases m) as [-> | ->]; [ | eexists; reflexivity].
  destruct (str_int_cases d) as [-> | ->]; eexists; reflexivity.
Qed.

Lemma max_day_code (m y : Z) :
  1 <= m <= 12 ->
  (if m =? 2 then (if _is_leap_year y then 29 else 28)
   else if in_list m [4; 6; 9; 11] then 30 else 31) = max_day_for m y.
Proof. intros H. month_cases m; reflexivity. Qed.

(** The constructor on three [int] instances whose values form a valid
    triple stores them as they are. *)
Lemma init_valid (d m y : pyint) :
  valid_triple (int_val d) (int_val m) (int_val y) ->
  forall vd vm vy,
    as_int vd = Some d -> as_int vm = Some m -> as_int vy = Some y ->
    __init__ vd vm vy = Ok (mkDate d m y).
Proof.
  intros (Hy & Hm & Hd) vd vm vy Ed Em Ey.
  unfold __init__. rewrite Ed, Em, Ey. cbv zeta.
  rewrite max_day_code by assumption.
  destruct (Z.leb_spec (int_val y) 0); [lia | ].
  destruct (Z.ltb_spec (int_val m) 1); [lia | ].
  destruct (Z.gtb_spec (int_val m) 12); [lia | ].
  destruct (Z.ltb_spec (int_val d) 1); [lia | ].
  destruct (Z.gtb_spec (int_val d) (max_day_for (int_val m) (int_val y)));
    [lia | ].
  reflexivity.
Qed.

(** Whatever the constructor returns is a valid date made of its
    arguments. *)
Lemma init_inv (vd vm vy : pyval) (a : Date) :
  __init__ vd vm vy = Ok a ->
  as_int vd = Some (_day a) /\ as_int vm = Some (_month a) /\
  as_int vy = Some (_year a) /\ valid_Date a.
Proof.
  unfold __init__.
  destruct (as_int vd) as [d | ]; [ | destruct (as_int vm); discriminate].
  destruct (as_int vm) as [m | ]; [ | discriminate].
  destruct (as_int vy) as [y | ]; [ | discriminate].
  destruct (Z.leb_spec (int_val y) 0); [discriminate | ].
  destruct (Z.ltb_spec (int_val m) 1); [discriminate | ].
  destruct (Z.gtb_spec (int_val m) 12); [discriminate | ].
  cbn [orb].
  destruct (Z.ltb_spec (int_val d) 1); [discriminate | ].
  cbv zeta. rewrite max_day_code by lia.
  destruct (Z.gtb_spec (int_val d) (max_day_for (int_val m) (int_val y)));
    [destruct (day_overflow_raises m d) as [msg ->]; discriminate | ].
  intros [= <-]. unfold valid_Date, valid_triple, day_of, month_of, year_of.
  cbn. repeat split; lia.
Qed.

Lemma create_valid (d m y : Z) :
  valid_triple d m y -> create d m y = Ok (mkDate (PInt d) (PInt m) (PInt y)).
Proof. intros V. apply init_valid; [exact V | reflexivity ..]. Qed.

Lemma create_inv (d m y : Z) (a : Date) :
  create d m y = Ok a ->
  a = mkDate (PInt d) (PInt m) (PInt y) /\ valid_triple d m y.
Proof.
  intros E. apply init_inv in E. destruct E as (Ed & Em & Ey & V).
  destruct a as [ad am ay]. cbn in *.
  injection Ed as <-. injection Em as <-. injection Ey as <-.
  split; [reflexivity | exact V].
Qed.

(** Every failure on three integers is a [ValueError]. *)
Lemma create_invalid (d m y : Z) :
  ~ valid_triple d m y -> raises (create d m y) ValueError.
Proof.
  intros NV. unfold create, __init__. cbn [as_int int_val].
  destruct (Z.leb_spec y 0); [eexists; reflexivity | ].
  destruct (Z.ltb_spec m 1); [eexists; reflexivity | ].
  destruct (Z.gtb_spec m 12); [eexists; reflexivity | ].
  cbn [orb].
  destruct (Z.ltb_spec d 1); [eexists; reflexivity | ].
  cbv zeta. rewrite max_day_code by lia.
  destruct (Z.gtb_spec d (max_day_for m y)); [apply day_overflow_raises | ].
  exfalso. apply NV. unfold valid_triple. lia.
Qed.

(** A day beyond the length of the month: the message names the month and
    the day, unless the day has too many digits to be printed. *)
Lemma create_day_overflow (d m y : Z) :
  1 <= y -> 1 <= m <= 12 -> max_day_for m y < d ->
  (d < str_bound ->
   create d m y
   = Raise (mkExn ValueError
              ("У " ++ decimal m ++ "-му місяці не може бути " ++ decimal d
                    ++ " днів.")))
  /\ (str_bound <= d -> create d m y = Raise digit_limit_error).
Proof.
  intros Hy Hm Hd. unfold create, __init__. cbn [as_int int_val str_int].
  assert (1 <= max_day_for m y) by (month_cases m; cbn; try lia;
                                    destruct (_is_leap_year y); lia).
  pose proof str_bound_large as B.
  destruct (Z.leb_spec y 0); [lia | ].
  destruct (Z.ltb_spec m 1); [lia | ].
  destruct (Z.gtb_spec m 12); [lia | ].
  cbn [orb].
  destruct (Z.ltb_spec d 1); [lia | ].
  cbv zeta. rewrite max_day_code by lia.
  destruct (Z.gtb_spec d (max_day_for m y)); [ | lia].
  rewrite (str_Z_small m) by lia. cbn [bind]. split; intros L.
  - rewrite (str_Z_small d) by lia. reflexivity.
  - rewrite (str_Z_huge d) by lia. reflexivity.
Qed.

End Construction.

(** [Date(10**4300, 1, 2025)]: the day is beyond the month, and the error
    is the one of the digit limit, which names neither the month nor the
    day. *)
Lemma C1_huge_day_message :
  create (10 ^ 4300) 1 2025 = Raise digit_limit_error
  /\ create (10 ^ 4300) 1 2025
     <> Raise (mkExn ValueError
                 ("У " ++ decimal 1 ++ "-му місяці не може бути "
                       ++ decimal (10 ^ 4300) ++ " днів.")).
Proof.
  assert (create (10 ^ 4300) 1 2025 = Raise digit_limit_error) as E
      by (vm_compute; reflexivity).
  split; [exact E | ]. rewrite E. unfold digit_limit_error.
  cbn [append]. discriminate.
Qed.

(** C1, as the code has it.  On three integers the constructor succeeds,
    with a [Date] holding exactly those fields, if and only if [year >= 1],
    [1 <= month <= 12] and [1 <= day <= max_day_for month year]; every other
    triple fails with a [ValueError].  When the day exceeds the length of
    the month, the message names the month and the day count if the day has
    at most 4300 digits; for a longer day the [ValueError] is the one of the
    digit limit of the integer-to-text conversion. *)
Theorem C1_create_iff_valid (day month year : Z) :
  (create day month year = Ok (mkDate (PInt day) (PInt month) (PInt year))
   <-> valid_triple day month year)
  /\ ((exists a, create day month year = Ok a) <-> valid_triple day month year)
  /\ (~ valid_triple day month year -> raises (create day month year) ValueError)
  /\ (1 <= year -> 1 <= month <= 12 -> max_day_for month year < day ->
      (day < str_bound ->
       create day month year
       = Raise (mkExn ValueError
                  ("У " ++ decimal month ++ "-му місяці не може бути "
                        ++ decimal day ++ " днів.")))
      /\ (str_bound <= day -> create day month year = Raise digit_limit_error)).
Proof.
  split; [ | split; [ | split]].
  - split; [ | apply create_valid].
    intros E. apply create_inv in E. tauto.
  - split.
    + intros [a E]. apply create_inv in E. tauto.
    + intros V. eexists. apply create_valid, V.
  - apply create_invalid.
  - apply create_day_overflow.
Qed.

Lemma C1_create_iff_valid_witness :
  create 29 2 2024 = Ok (mkDate (PInt 29) (PInt 2) (PInt 2024))
  /\ raises (create 29 2 2025) ValueError
  /\ create 31 4 2025
     = Raise (mkExn ValueError "У 4-му місяці не може бути 31 днів.").
Proof.
  split; [ | split].
  - apply (proj1 (C1_create_iff_valid 29 2 2024)).
    unfold valid_triple; cbn; lia.
  - apply (proj1 (proj2 (proj2 (C1_create_iff_valid 29 2 2025)))).
    unfold valid_triple; cbn; lia.
  - apply (proj1 (proj2 (proj2 (proj2 (C1_create_iff_valid 31 4 2025)))
                    ltac:(lia) ltac:(lia) ltac:(cbn; lia))).
    vm_compute. reflexivity.
Defined.

(** The boundary cases of the demonstration at the end of [main.py]. *)
Example leap_day_2024 :
  create 29 2 2024 = Ok (mkDate (PInt 29) (PInt 2) (PInt 2024)).
Proof. reflexivity. Qed.

Example leap_day_2025 :
  create 29 2 2025
  = Raise (mkExn ValueError "У 2-му місяці не може бути 29 днів.").
Proof. vm_compute. reflexivity. Qed.

Example month_13 :
  create 10 13 2025
  = Raise (mkExn ValueError "Місяць повинен бути в діапазоні 1-12.").
Proof. reflexivity. Qed.

Example text_day :
  __init__ (PyStr "15") (PyInt 2) (PyInt 2025)
  = Raise (mkExn TypeError "День, місяць і рік повинні бути цілими числами.").
Proof. reflexivity. Qed.

(** ** The type check *)

(** A boolean passes the type check of the constructor: [Date(True, 1, 2025)]
    is built, with [True] stored as the day. *)
Lemma C2_boolean_is_accepted :
  __init__ (PyBool true) (PyInt 1) (PyInt 2025)
  = Ok (mkDate (PBool true) (PInt 1) (PInt 2025))
  /\ ~ raises (__init__ (PyBool true) (PyInt 1) (PyInt 2025)) TypeError.
Proof.
  split; [reflexivity | ].
  intros [msg E]. discriminate E.
Qed.

(** A stored boolean shows in the renderings that use [str]: the year [True]
    prints as its name. *)
Example boolean_year_text :
  (a <- __init__ (PyInt 1) (PyInt 1) (PyBool true) ;; __str__ a)
  = Ok "01.01.True".
Proof. vm_compute. reflexivity. Qed.

(** C2, as the code has it.  The constructor fails with a [TypeError]
    exactly when one of its three arguments is not an instance of [int]
    (a float, a string, [None]), whatever the other two are, so before any
    range check; a boolean is an instance of [int] and passes the check. *)
Theorem C2_type_error_iff_not_int (day month year : pyval) :
  (raises (__init__ day month year) TypeError
   <-> isinstance_int day && isinstance_int month && isinstance_int year = false)
  /\ (forall b, isinstance_int (PyBool b) = true).
Proof.
  split; [ | reflexivity].
  unfold raises, __init__, isinstance_int.
  destruct (as_int day) as [d | ]; [ | split; [reflexivity | ]].
  - destruct (as_int month) as [m | ]; [ | split; [reflexivity | ]].
    + destruct (as_int year) as [y | ];
        [ | split; [reflexivity | intros _; eexists; reflexivity]].
      split; [ | discriminate].
      intros [msg E]. exfalso. revert E.
      destruct (_ <=? _); [discriminate | ].
      destruct (_ || _); [discriminate | ].
      destruct (_ <? _); [discriminate | ].
      cbv zeta. destruct (_ >? _); [ | discriminate].
      destruct (day_overflow_raises m d) as [msg' ->]. discriminate.
    + intros _. eexists; reflexivity.
  - intros _. destruct (as_int month); eexists; reflexivity.
Qed.

Lemma C2_type_error_iff_not_int_witness :
  raises (__init__ (PyStr "15") (PyInt 2) (PyInt (-2025))) TypeError.
Proof.
  apply (proj2 (proj1 (C2_type_error_iff_not_int
                         (PyStr "15") (PyInt 2) (PyInt (-2025))))).
  reflexivity.
Defined.

(** ** Leap years *)

Lemma is_leap_year_rule (year : Z) : _is_leap_year year = true <-> leap_rule year.
Proof.
  unfold _is_leap_year, leap_rule.
  rewrite andb_true_iff, orb_true_iff, negb_true_iff, !Z.eqb_eq, Z.eqb_neq.
  rewrite <- !Z.mod_divide by lia. tauto.
Qed.

(** C4. For every integer year, the static helper and the method of a
    [Date] answer true exactly when the year is divisible by 4 and not by
    100, or divisible by 400; 2024 and 2000 are leap years, 2025 and 1900 are
    not. *)
Theorem C4_leap_year_rule :
  (forall year : Z, _is_leap_year year = true <-> leap_rule year)
  /\ (forall a : Date, is_leap_year a = true <-> leap_rule (year_of a))
  /\ _is_leap_year 2024 = true /\ _is_leap_year 2000 = true
  /\ _is_leap_year 2025 = false /\ _is_leap_year 1900 = false.
Proof.
  split; [exact is_leap_year_rule | ].
  split; [intros a; apply is_leap_year_rule | ].
  repeat split; reflexivity.
Qed.

(** ** Comparison *)

Lemma tuple_lt_3 (y m d y' m' d' : Z) :
  tuple_lt [y; m; d] [y'; m'; d'] = true
  <-> y < y' \/ (y = y' /\ (m < m' \/ (m = m' /\ d < d'))).
Proof.
  cbn [tuple_lt].
  destruct (Z.eqb_spec y y'); destruct (Z.eqb_spec m m');
    destruct (Z.eqb_spec d d'); rewrite ?Z.ltb_lt; try lia;
    (split; [discriminate | lia]).
Qed.

Lemma tuple_gt_3 (y m d y' m' d' : Z) :
  tuple_gt [y; m; d] [y'; m'; d'] = true
  <-> y' < y \/ (y' = y /\ (m' < m \/ (m' = m /\ d' < d))).
Proof.
  cbn [tuple_gt].
  destruct (Z.eqb_spec y y'); destruct (Z.eqb_spec m m');
    destruct (Z.eqb_spec d d'); rewrite ?Z.gtb_gt; try lia;
    (split; [discriminate | lia]).
Qed.

Lemma tuple_eq_3 (d m y d' m' y' : Z) :
  tuple_eq [d; m; y] [d'; m'; y'] = true <-> d = d' /\ m = m' /\ y = y'.
Proof.
  cbn [tuple_eq]. rewrite !andb_true_iff, !Z.eqb_eq. tauto.
Qed.

(** C6. Between two dates, [<] and [>] are the lexicographic comparisons of
    (year, month, day), and [==] holds exactly when the three fields are
    equal; 29.02.2024 is not later than 16.04.2025. *)
Theorem C6_ordering_and_equality :
  (forall a b : Date,
      (exists r, __lt__ a (ODate b) = Ok r /\ (r = true <-> chrono_lt a b))
      /\ (exists r, __gt__ a (ODate b) = Ok r /\ (r = true <-> chrono_lt b a))
      /\ (exists r, __eq__ a (ODate b) = Ok r
                    /\ (r = true <-> day_of a = day_of b
                                     /\ month_of a = month_of b
                                     /\ year_of a = year_of b)))
  /\ (a <- create 29 2 2024 ;; b <- create 16 4 2025 ;; __gt__ a (ODate b))
     = Ok false.
Proof.
  split; [ | reflexivity].
  intros a b. split; [ | split]; eexists; (split; [reflexivity | ]).
  - apply tuple_lt_3.
  - apply tuple_gt_3.
  - apply tuple_eq_3.
Qed.

(** ** Rendering *)

Lemma decimal_numeral (z : Z) : decimal_of (decimal z) z.
Proof.
  exists (Z.to_int z). split; [reflexivity | ]. split.
  - apply DecimalZ.of_to.
  - rewrite <- (DecimalZ.of_to z) at 2. symmetry. apply DecimalZ.to_of.
Qed.

Lemma decimal_first_digit (z : Z) :
  1 <= z -> exists c rest, decimal z = String c rest /\ c <> "0"%char.
Proof.
  intros H. destruct z as [ | p | p]; try lia.
  unfold decimal. cbn [Z.to_int NilZero.string_of_int].
  pose proof (DecimalPos.Unsigned.to_uint_nonzero p) as NZ.
  pose proof (DecimalPos.Unsigned.to_of (Pos.to_uint p)) as N.
  rewrite DecimalPos.Unsigned.of_to in N. cbn [N.to_uint] in N.
  pose proof (DecimalFacts.nzhead_nonzero (Pos.to_uint p)) as NH.
  assert (Decimal.nzhead (Pos.to_uint p) <> Decimal.Nil) as NN.
  { intros E. apply DecimalFacts.unorm_0 in E. congruence. }
  rewrite (DecimalFacts.unorm_nzhead _ NN) in N.
  rewrite <- N in NH.
  destruct (Pos.to_uint p) as [ | u | u | u | u | u | u | u | u | u | u ];
    cbn [NilZero.string_of_uint NilEmpty.string_of_uint];
    try (eexists; eexists; split; [reflexivity | discriminate]).
  - exfalso. apply NN. reflexivity.
  - exfalso. apply (NH u). reflexivity.
Qed.

Lemma format_02d_below_100 :
  forallb (fun n => match format_02d (PInt (Z.of_nat n)) with
                    | Ok s => String.eqb s (two_digits (Z.of_nat n))
                    | _ => false
                    end)
          (seq 0 100) = true.
Proof. vm_compute. reflexivity. Qed.

Lemma format_02d_two_digits (x : pyint) :
  0 <= int_val x < 100 -> format_02d x = Ok (two_digits (int_val x)).
Proof.
  intros H. change (format_02d x) with (format_02d (PInt (int_val x))).
  pose proof format_02d_below_100 as A.
  rewrite forallb_forall in A. specialize (A (Z.to_nat (int_val x))).
  rewrite Z2Nat.id in A by lia.
  destruct (format_02d (PInt (int_val x))) as [s | | e];
    [ | discriminate A; apply in_seq; lia ..].
  f_equal. apply String.eqb_eq, A, in_seq. lia.
Qed.

Lemma max_day_for_le_31 (m y : Z) : 1 <= m <= 12 -> max_day_for m y <= 31.
Proof.
  intros H. month_cases m; cbn [max_day_for]; try lia.
  destruct (_is_leap_year y); lia.
Qed.

(** The text of a valid date whose year can be printed. *)
Lemma str_of_valid (a : Date) :
  valid_Date a -> printable (_year a) ->
  __str__ a = Ok (two_digits (day_of a) ++ "." ++ two_digits (month_of a)
                             ++ "." ++ text_of (_year a)).
Proof.
  intros (Hy & Hm & Hd) P.
  pose proof (max_day_for_le_31 _ (year_of a) Hm).
  unfold __str__. rewrite !format_02d_two_digits by (fold (day_of a); fold (month_of a); lia).
  cbn [bind]. rewrite str_int_printable by assumption. reflexivity.
Qed.

Lemma str_of_long_year (a : Date) (y : Z) :
  valid_Date a -> _year a = PInt y -> str_bound <= y ->
  __str__ a = Raise digit_limit_error.
Proof.
  intros (Hy & Hm & Hd) E L.
  pose proof (max_day_for_le_31 _ (year_of a) Hm).
  unfold __str__. rewrite !format_02d_two_digits by (fold (day_of a); fold (month_of a); lia).
  cbn [bind]. rewrite E. cbn [str_int]. rewrite str_Z_huge by lia. reflexivity.
Qed.

(** [Date(1, 1, True)] is a valid date whose text shows the name of the
    boolean where the year should be; and the text of a date whose year has
    4301 digits is refused. *)
Lemma C8_year_not_a_numeral :
  __init__ (PyInt 1) (PyInt 1) (PyBool true)
  = Ok (mkDate (PInt 1) (PInt 1) (PBool true))
  /\ valid_Date (mkDate (PInt 1) (PInt 1) (PBool true))
  /\ __str__ (mkDate (PInt 1) (PInt 1) (PBool true)) = Ok "01.01.True"
  /\ __str__ (mkDate (PInt 1) (PInt 1) (PBool true))
     <> Ok (two_digits 1 ++ "." ++ two_digits 1 ++ "." ++ decimal 1)
  /\ raises (a <- create 1 1 (10 ^ 4300) ;; __str__ a) ValueError.
Proof.
  split; [reflexivity | ].
  split; [unfold valid_Date, valid_triple; cbn; lia | ].
  assert (__str__ (mkDate (PInt 1) (PInt 1) (PBool true)) = Ok "01.01.True")
    as E by (vm_compute; reflexivity).
  split; [exact E | ]. split.
  - rewrite E. vm_compute. discriminate.
  - eexists. vm_compute. reflexivity.
Qed.

(** C8, as the code has it.  The text of a valid date whose year is a
    genuine integer of at most 4300 digits is its day and its month, each
    written with two digits, and its year written without padding, separated
    by dots.  A year that is the boolean [True] is written as that name, and
    a year of more than 4300 digits makes the conversion raise the
    [ValueError] of the digit limit. *)
Theorem C8_to_string_format :
  (forall (a : Date) (y : Z),
      valid_Date a -> _year a = PInt y -> y < str_bound ->
      __str__ a = Ok (two_digits (day_of a) ++ "." ++ two_digits (month_of a)
                                 ++ "." ++ decimal y)
      /\ decimal_of (decimal y) y
      /\ exists c rest, decimal y = String c rest /\ c <> "0"%char)
  /\ (forall a : Date,
         valid_Date a -> _year a = PBool true ->
         __str__ a = Ok (two_digits (day_of a) ++ "." ++ two_digits (month_of a)
                                    ++ "." ++ "True"))
  /\ (forall (a : Date) (y : Z),
         valid_Date a -> _year a = PInt y -> str_bound <= y ->
         __str__ a = Raise digit_limit_error)
  /\ (a <- create 5 4 2025 ;; __str__ a) = Ok "05.04.2025"
  /\ (a <- create 16 12 987 ;; __str__ a) = Ok "16.12.987".
Proof.
  split; [ | split; [ | split; [ | split; vm_compute; reflexivity]]].
  - intros a y V E L.
    assert (1 <= y) as P by (destruct V as (Hy & _); unfold year_of in Hy;
                             rewrite E in Hy; exact Hy).
    split; [ | split].
    + rewrite str_of_valid; [rewrite E; reflexivity | exact V | ].
      rewrite E. cbn [printable]. lia.
    + apply decimal_numeral.
    + apply decimal_first_digit, P.
  - intros a V E. rewrite str_of_valid; [rewrite E; reflexivity | exact V | ].
    rewrite E. exact I.
  - intros a y V E L. apply (str_of_long_year a y V E). exact L.
Qed.

Lemma C8_to_string_format_witness :
  __str__ (mkDate (PBool true) (PInt 2) (PInt 2024)) = Ok "01.02.2024".
Proof.
  destruct (proj1 C8_to_string_format
                  (mkDate (PBool true) (PInt 2) (PInt 2024)) 2024)
    as (E & _).
  - unfold valid_Date, valid_triple; cbn; lia.
  - reflexivity.
  - vm_compute. reflexivity.
  - rewrite E. vm_compute. reflexivity.
Defined.

(** The month name of a valid date whose year can be printed. *)
Lemma month_name_of_valid (a : Date) :
  valid_Date a -> printable (_year a) ->
  exists name,
    nth_error months (Z.to_nat (month_of a - 1)) = Some name
    /\ month_name a
       = Ok (text_of (_day a) ++ " " ++ name ++ " " ++ text_of (_year a)
                     ++ " рік").
Proof.
  intros (Hy & Hm & Hd) P.
  pose proof (max_day_for_le_31 _ (year_of a) Hm) as M.
  pose proof str_bound_large as B.
  assert (printable (_day a)) as Pd.
  { unfold day_of in Hd. destruct (_day a) as [z | b]; cbn [printable int_val] in *;
      [lia | exact I]. }
  unfold month_name. rewrite !str_int_printable by assumption. cbn [bind].
  revert Hm. generalize (month_of a). intros m Hm.
  month_cases m; eexists; (split; [reflexivity | ]); reflexivity.
Qed.

(** [Date(True, 1, 2025)] is a valid date whose month name starts with the
    name of the boolean, not with the day; and the month name of a date
    whose year has 4301 digits is refused. *)
Lemma C9_day_not_a_numeral :
  __init__ (PyBool true) (PyInt 1) (PyInt 2025)
  = Ok (mkDate (PBool true) (PInt 1) (PInt 2025))
  /\ valid_Date (mkDate (PBool true) (PInt 1) (PInt 2025))
  /\ month_name (mkDate (PBool true) (PInt 1) (PInt 2025))
     = Ok "True січня 2025 рік"
  /\ month_name (mkDate (PBool true) (PInt 1) (PInt 2025))
     <> Ok (decimal 1 ++ " січня " ++ decimal 2025 ++ " рік")
  /\ raises (a <- create 1 1 (10 ^ 4300) ;; month_name a) ValueError.
Proof.
  split; [reflexivity | ].
  split; [unfold valid_Date, valid_triple; cbn; lia | ].
  assert (month_name (mkDate (PBool true) (PInt 1) (PInt 2025))
          = Ok "True січня 2025 рік") as E by (vm_compute; reflexivity).
  split; [exact E | ]. split.
  - rewrite E. vm_compute. discriminate.
  - eexists. vm_compute. reflexivity.
Qed.

(** C9, as the code has it.  The month name of a valid date whose day and
    year are genuine integers, the year of at most 4300 digits, is its day,
    the genitive name found at index [month - 1] of the table of twelve
    names, its year and the word "рік", separated by single spaces;
    16.04.2025 gives "16 квітня 2025 рік".  A day or a year that is a
    boolean is written as [True]; a year of more than 4300 digits makes the
    conversion raise the [ValueError] of the digit limit. *)
Theorem C9_month_name_format :
  (forall (a : Date) (d y : Z),
      valid_Date a -> _day a = PInt d -> _year a = PInt y -> y < str_bound ->
      exists name,
        nth_error ["січня"; "лютого"; "березня"; "квітня"; "травня"; "червня";
                   "липня"; "серпня"; "вересня"; "жовтня"; "листопада";
                   "грудня"] (Z.to_nat (month_of a - 1)) = Some name
        /\ month_name a
           = Ok (decimal d ++ " " ++ name ++ " " ++ decimal y ++ " рік"))
  /\ (forall a : Date,
         valid_Date a -> printable (_year a) ->
         exists name,
           nth_error ["січня"; "лютого"; "березня"; "квітня"; "травня";
                      "червня"; "липня"; "серпня"; "вересня"; "жовтня";
                      "листопада"; "грудня"] (Z.to_nat (month_of a - 1))
           = Some name
           /\ month_name a
              = Ok (text_of (_day a) ++ " " ++ name ++ " "
                            ++ text_of (_year a) ++ " рік"))
  /\ text_of (PBool true) = "True"
  /\ (forall (a : Date) (y : Z),
         valid_Date a -> _year a = PInt y -> str_bound <= y ->
         month_name a = Raise digit_limit_error)
  /\ (a <- create 16 4 2025 ;; month_name a) = Ok "16 квітня 2025 рік".
Proof.
  split; [ | split; [ | split; [reflexivity | split]]].
  - intros a d y V Ed Ey L.
    assert (1 <= y) as P by (destruct V as (Hy & _); unfold year_of in Hy;
                             rewrite Ey in Hy; exact Hy).
    destruct (month_name_of_valid a V) as (name & N & M).
    { rewrite Ey. cbn [printable]. lia. }
    exists name. split; [exact N | ]. rewrite M, Ed, Ey. reflexivity.
  - intros a V P. apply month_name_of_valid; assumption.
  - intros a y (Hy & Hm & Hd) E L.
    pose proof (max_day_for_le_31 _ (year_of a) Hm) as M.
    pose proof str_bound_large as B.
    assert (printable (_day a)) as Pd.
    { unfold day_of in Hd. destruct (_day a) as [z | b];
        cbn [printable int_val] in *; [lia | exact I]. }
    unfold month_name. rewrite (str_int_printable _ Pd). cbn [bind].
    rewrite E. cbn [str_int]. rewrite str_Z_huge by lia.
    revert Hm. generalize (month_of a). intros m Hm.
    month_cases m; reflexivity.
  - vm_compute. reflexivity.
Qed.

Lemma C9_month_name_format_witness :
  exists name,
    nth_error months 0 = Some name
    /\ month_name (mkDate (PInt 1) (PInt 1) (PInt 2025))
       = Ok ("1 " ++ name ++ " 2025 рік").
Proof.
  destruct (proj1 C9_month_name_format
                  (mkDate (PInt 1) (PInt 1) (PInt 2025)) 1 2025)
    as (name & N & M).
  - unfold valid_Date, valid_triple; cbn; lia.
  - reflexivity.
  - reflexivity.
  - vm_compute. reflexivity.
  - exists name. split; [exact N | exact M].
Defined.

(** ** Day arithmetic *)

Section Arithmetic.

Import datetime.

Lemma days_after_ord (k : nat) (t : Z * Z * Z) :
  valid_ymd t ->
  valid_ymd (days_after k t) /\ ord_ymd (days_after k t) = ord_ymd t + Z.of_nat k.
Proof.
  intros V. induction k as [ | k [IV IO]].
  - split; [exact V | cbn; lia].
  - cbn [days_after].
    destruct (days_after k t) as [[y m] d].
    pose proof (ymd2ord_tomorrow y m d IV) as T.
    destruct (tomorrow (y, m, d)) as [[y' m'] d'].
    destruct T as [TV TO]. split; [exact TV | ].
    cbn [ord_ymd] in *. lia.
Qed.

(** Two valid triples whose day numbers differ by [k] are [k] calendar
    days apart. *)
Lemma days_after_unique (k : nat) (t t' : Z * Z * Z) :
  valid_ymd t -> valid_ymd t' -> ord_ymd t' = ord_ymd t + Z.of_nat k ->
  t' = days_after k t.
Proof.
  intros V V' E. destruct (days_after_ord k t V) as [W O].
  rewrite <- O in E. clear O.
  destruct t' as [[y' m'] d']. destruct (days_after k t) as [[y m] d].
  destruct (ymd2ord_inj _ _ _ _ _ _ V' W E) as (-> & -> & ->). reflexivity.
Qed.

Lemma ymd2ord_range (y m d : Z) :
  valid_triple d m y ->
  1 <= _ymd2ord y m d /\ (y <= 9999 <-> _ymd2ord y m d <= _MAXORDINAL).
Proof.
  intros (Hy & Hm & Hd).
  rewrite <- days_in_month_spec in Hd by assumption.
  pose proof (day_of_year_bounds y m d Hm Hd) as B.
  pose proof (days_before_year_mono 1 y Hy) as M1.
  change (_days_before_year 1) with 0 in M1.
  pose proof (days_before_year_succ y) as S.
  unfold _ymd2ord, _MAXORDINAL. split; [lia | ]. split; intros H.
  - pose proof (days_before_year_mono (y + 1) 10000 ltac:(lia)) as M.
    change (_days_before_year 10000) with 3652059 in M.
    destruct (_is_leap y); cbn [Z.b2z] in *; lia.
  - destruct (Z.le_gt_cases y 9999) as [L | G]; [exact L | exfalso].
    pose proof (days_before_year_mono 10000 y ltac:(lia)) as M.
    change (_days_before_year 10000) with 3652059 in M. lia.
Qed.

Lemma check_date_fields_valid (y m d : Z) :
  valid_triple d m y -> y <= 9999 ->
  _check_date_fields y m d = Ok (mkdate y m d).
Proof.
  intros (Hy & Hm & Hd) L.
  rewrite <- days_in_month_spec in Hd by assumption.
  unfold _check_date_fields, MINYEAR, MAXYEAR.
  destruct (Z.leb_spec 1 y); [ | lia].
  destruct (Z.leb_spec y 9999); [ | lia].
  destruct (Z.leb_spec 1 m); [ | lia].
  destruct (Z.leb_spec m 12); [ | lia].
  cbn [andb negb].
  destruct (Z.leb_spec 1 d); [ | lia].
  destruct (Z.leb_spec d (_days_in_month y m)); [ | lia].
  reflexivity.
Qed.

Lemma as_C_int_small (z : Z) :
  -2147483648 <= z <= 2147483647 -> as_C_int z = Ok z.
Proof.
  intros H. unfold as_C_int.
  destruct (Z.ltb_spec z (-2147483648)); [lia | ].
  destruct (Z.gtb_spec z 2147483647); [lia | reflexivity].
Qed.

Lemma date_new_valid (impl : implementation) (y m d : Z) :
  valid_triple d m y -> y <= 9999 -> date_new impl y m d = Ok (mkdate y m d).
Proof.
  intros V L. destruct impl; cbn [date_new].
  - apply check_date_fields_valid; assumption.
  - destruct V as (Hy & Hm & Hd).
    pose proof (max_day_for_le_31 m y Hm).
    rewrite !as_C_int_small by lia. cbn [bind].
    apply check_date_fields_valid; [unfold valid_triple | ]; auto.
Qed.

Lemma check_date_fields_beyond (y m d : Z) :
  9999 < y -> raises (_check_date_fields y m d) ValueError.
Proof.
  intros G. unfold _check_date_fields, MINYEAR, MAXYEAR.
  destruct (Z.leb_spec y 9999); [lia | ].
  rewrite andb_false_r. eexists; reflexivity.
Qed.

Lemma date_new_beyond (impl : implementation) (y m d : Z) :
  9999 < y ->
  -2147483648 <= m <= 2147483647 -> -2147483648 <= d <= 2147483647 ->
  raises (date_new impl y m d) (year_error impl y).
Proof.
  intros G Hm Hd. destruct impl; cbn [date_new year_error].
  - apply check_date_fields_beyond, G.
  - unfold as_C_int at 1.
    destruct (Z.ltb_spec y (-2147483648)); [lia | ].
    destruct (Z.gtb_spec y 2147483647); [eexists; reflexivity | ].
    rewrite !as_C_int_small by lia. cbn [bind].
    apply check_date_fields_beyond, G.
Qed.

(** [date] builds the date or raises an exception. *)
Lemma date_new_cases (impl : implementation) (y m d : Z) :
  (exists x, date_new impl y m d = Ok x) \/ fails (date_new impl y m d).
Proof.
  assert (forall y m d, (exists x, _check_date_fields y m d = Ok x)
                        \/ fails (_check_date_fields y m d)) as C.
  { clear. intros y m d. unfold _check_date_fields.
    destruct (negb _); [right; eexists; reflexivity | ].
    destruct (negb _); [right; eexists; reflexivity | ].
    cbv zeta. destruct (negb _); [right | left]; eexists; reflexivity. }
  assert (forall z, (exists x, as_C_int z = Ok x) \/ fails (as_C_int z)) as I.
  { clear. intros z. unfold as_C_int.
    destruct (_ <? _); [right; eexists; reflexivity | ].
    destruct (_ >? _); [right | left]; eexists; reflexivity. }
  destruct impl; cbn [date_new]; [apply C | ].
  destruct (I y) as [[y' ->] | [e ->]]; [ | right; eexists; reflexivity].
  destruct (I m) as [[m' ->] | [e ->]]; [ | right; eexists; reflexivity].
  destruct (I d) as [[d' ->] | [e ->]]; [ | right; eexists; reflexivity].
  cbn [bind]. apply C.
Qed.

Lemma fromordinal_in_range (n : Z) :
  1 <= n <= _MAXORDINAL ->
  exists y m d,
    fromordinal n = Ok (mkdate y m d) /\ valid_triple d m y /\ y <= 9999
    /\ _ymd2ord y m d = n.
Proof.
  intros [L U]. unfold fromordinal.
  pose proof (ord2ymd_correct n L) as C.
  destruct (_ord2ymd n) as [[y m] d]. destruct C as [V E].
  assert (y <= 9999) as Y by (apply (ymd2ord_range y m d V); lia).
  exists y, m, d. rewrite check_date_fields_valid by assumption. auto.
Qed.

Lemma to_date_valid (impl : implementation) (a : Date) :
  valid_Date a -> year_of a <= 9999 ->
  to_date impl a = Ok (mkdate (year_of a) (month_of a) (day_of a)).
Proof. intros V L. apply date_new_valid; assumption. Qed.

Lemma ordinal_range (a : Date) :
  valid_Date a -> year_of a <= 9999 -> 1 <= ordinal a <= _MAXORDINAL.
Proof.
  intros V L. destruct (ymd2ord_range _ _ _ V) as [P Q].
  split; [exact P | apply Q, L].
Qed.

(** Outside the days 0001-01-01 .. 9999-12-31 the sum overflows. *)
Lemma add_overflow (impl : implementation) (a : Date) (n : pyint) :
  valid_Date a -> year_of a <= 9999 ->
  ordinal a + int_val n < 1 \/ _MAXORDINAL < ordinal a + int_val n ->
  forall v, as_int v = Some n -> raises (__add__ impl a v) OverflowError.
Proof.
  intros V L H v E. unfold __add__. rewrite E, to_date_valid by assumption.
  cbn [bind]. unfold timedelta_new.
  destruct (Z.abs (int_val n) >? 999999999); [eexists; reflexivity | ].
  cbn [bind]. unfold date_add, toordinal. cbn [year month day days].
  fold (ordinal a).
  destruct (Z.ltb_spec 0 (ordinal a + int_val n));
    destruct (Z.leb_spec (ordinal a + int_val n) _MAXORDINAL);
    try lia; eexists; reflexivity.
Qed.

(** Inside them the sum is the date with the shifted day number. *)
Lemma add_in_range (impl : implementation) (a : Date) (n : pyint) :
  valid_Date a -> year_of a <= 9999 ->
  1 <= ordinal a + int_val n <= _MAXORDINAL ->
  forall v, as_int v = Some n ->
  exists c, __add__ impl a v = Ok c /\ valid_Date c /\ year_of c <= 9999
            /\ ordinal c = ordinal a + int_val n.
Proof.
  intros V L H v E. unfold __add__. rewrite E, to_date_valid by assumption.
  cbn [bind]. unfold timedelta_new.
  pose proof (ordinal_range a V L) as R. unfold _MAXORDINAL in *.
  destruct (Z.gtb_spec (Z.abs (int_val n)) 999999999); [lia | ].
  cbn [bind]. unfold date_add, toordinal. cbn [year month day days].
  fold (ordinal a).
  destruct (Z.ltb_spec 0 (ordinal a + int_val n)); [ | lia].
  destruct (Z.leb_spec (ordinal a + int_val n) _MAXORDINAL);
    [ | unfold _MAXORDINAL in *; lia].
  cbn [andb].
  destruct (fromordinal_in_range (ordinal a + int_val n))
    as (y & m & d & F & W & Y & O); [unfold _MAXORDINAL; lia | ].
  rewrite F. cbn [bind year month day].
  exists (mkDate (PInt d) (PInt m) (PInt y)).
  split; [apply (create_valid d m y W) | ].
  split; [exact W | ]. split; [exact Y | exact O].
Qed.

Lemma sub_valid (impl : implementation) (a b : Date) :
  valid_Date a -> valid_Date b -> year_of a <= 9999 -> year_of b <= 9999 ->
  __sub__ impl a (ODate b) = Ok (ordinal a - ordinal b).
Proof.
  intros Va Vb La Lb. unfold __sub__.
  rewrite !to_date_valid by assumption. cbn [bind].
  unfold date_sub, toordinal, timedelta_new. cbn [year month day].
  fold (ordinal a) (ordinal b).
  pose proof (ordinal_range a Va La). pose proof (ordinal_range b Vb Lb).
  unfold _MAXORDINAL in *.
  destruct (Z.gtb_spec (Z.abs (ordinal a - ordinal b)) 999999999); [lia | ].
  reflexivity.
Qed.

(** The day number counts the days from 0001-01-01, which is day 1. *)
Lemma ordinal_counts_days (a : Date) :
  valid_Date a -> ymd a = days_after (Z.to_nat (ordinal a - 1)) (1, 1, 1).
Proof.
  intros V. apply days_after_unique.
  - unfold valid_ymd, valid_triple. cbn. lia.
  - exact V.
  - destruct (ymd2ord_range _ _ _ V) as [P _].
    unfold ymd, ord_ymd. fold (ordinal a). fold (ordinal a) in P.
    change (_ymd2ord 1 1 1) with 1. lia.
Qed.

Lemma days_apart (a c : Date) (k : Z) :
  valid_Date a -> valid_Date c -> 0 <= k -> ordinal c = ordinal a + k ->
  ymd c = days_after (Z.to_nat k) (ymd a).
Proof.
  intros Va Vc K E. apply days_after_unique; [exact Va | exact Vc | ].
  unfold ymd, ord_ymd. fold (ordinal a) (ordinal c). lia.
Qed.

Lemma to_date_cases (impl : implementation) (a : Date) :
  (exists x, to_date impl a = Ok x) \/ fails (to_date impl a).
Proof. apply date_new_cases. Qed.

Lemma to_date_beyond (impl : implementation) (a : Date) :
  valid_Date a -> 9999 < year_of a ->
  raises (to_date impl a) (year_error impl (year_of a)).
Proof.
  intros (Hy & Hm & Hd) G.
  pose proof (max_day_for_le_31 _ (year_of a) Hm).
  apply date_new_beyond; [exact G | lia | lia].
Qed.

End Arithmetic.

(** Moving before 0001-01-01 raises an [OverflowError], which is not a
    [ValueError]; and so does moving past 9999-12-31, which does not fall
    before year 1.  Both implementations of [datetime] agree. *)
Lemma C3_overflow_is_not_ValueError :
  (raises (a <- create 1 1 1 ;; __add__ datetime.accelerated a (PyInt (-1)))
          OverflowError
   /\ ~ raises (a <- create 1 1 1 ;; __add__ datetime.accelerated a (PyInt (-1)))
               ValueError
   /\ raises (a <- create 31 12 9999 ;; __add__ datetime.accelerated a (PyInt 1))
             OverflowError)
  /\ (raises (a <- create 1 1 1 ;; __add__ datetime.pure_python a (PyInt (-1)))
             OverflowError
      /\ ~ raises (a <- create 1 1 1 ;;
                   __add__ datetime.pure_python a (PyInt (-1))) ValueError
      /\ raises (a <- create 31 12 9999 ;;
                 __add__ datetime.pure_python a (PyInt 1)) OverflowError).
Proof.
  split; (split; [eexists; reflexivity | ]; split; [ | eexists; reflexivity]);
    intros [msg E]; discriminate E.
Qed.

(** C3, as the code has it.  Let [a] be a valid date of a year up to 9999;
    its day number counts the days from 0001-01-01 (day 1), and 9999-12-31
    is day 3652059.  When the day [n] days after [a] lies before 0001-01-01
    or after 9999-12-31, [a + n] raises an [OverflowError]; otherwise it
    returns a valid date lying exactly [n] calendar days after [a] ([-n] days
    before, for a negative [n]).  The operation is a function of the fields
    of [a] and assigns none of them. *)
Theorem C3_add_days (impl : datetime.implementation) (a : Date) (n : Z) :
  valid_Date a -> year_of a <= 9999 ->
  ymd a = days_after (Z.to_nat (ordinal a - 1)) (1, 1, 1)
  /\ (ordinal a + n < 1 \/ datetime._MAXORDINAL < ordinal a + n ->
      raises (__add__ impl a (PyInt n)) OverflowError)
  /\ (1 <= ordinal a + n <= datetime._MAXORDINAL ->
      exists c,
        __add__ impl a (PyInt n) = Ok c /\ valid_Date c /\ year_of c <= 9999
        /\ ordinal c = ordinal a + n
        /\ (0 <= n -> ymd c = days_after (Z.to_nat n) (ymd a))
        /\ (n <= 0 -> ymd a = days_after (Z.to_nat (- n)) (ymd c))).
Proof.
  intros V L. split; [apply ordinal_counts_days, V | ]. split.
  - intros H. apply (add_overflow impl a (PInt n)); auto.
  - intros H.
    destruct (add_in_range impl a (PInt n) V L H (PyInt n) eq_refl)
      as (c & E & Vc & Lc & O).
    cbn [int_val] in O. exists c. repeat (split; [assumption | ]). split.
    + intros P. apply days_apart; assumption.
    + intros P. apply days_apart; try assumption; lia.
Qed.

Lemma C3_add_days_witness :
  exists c,
    __add__ datetime.accelerated (mkDate (PInt 25) (PInt 2) (PInt 2024)) (PyInt 10)
    = Ok c
    /\ ymd c = (2024, 3, 6).
Proof.
  destruct (C3_add_days datetime.accelerated
                        (mkDate (PInt 25) (PInt 2) (PInt 2024)) 10)
    as (_ & _ & H).
  - unfold valid_Date, valid_triple; cbn; lia.
  - cbn; lia.
  - destruct H as (c & E & _ & _ & _ & D & _).
    + vm_compute. split; discriminate.
    + exists c. split; [exact E | ]. rewrite D by lia. reflexivity.
Defined.

(** C5. For valid dates [a] and [b] of years up to 9999, [a - b] is the
    number of calendar days from [b] to [a], negative when [a] is the
    earlier; [b - a] is its opposite; and [b + (a - b)] equals [a]. *)
Theorem C5_difference (impl : datetime.implementation) (a b : Date) :
  valid_Date a -> valid_Date b -> year_of a <= 9999 -> year_of b <= 9999 ->
  exists k,
    __sub__ impl a (ODate b) = Ok k
    /\ __sub__ impl b (ODate a) = Ok (- k)
    /\ (0 <= k -> ymd a = days_after (Z.to_nat k) (ymd b))
    /\ (k <= 0 -> ymd b = days_after (Z.to_nat (- k)) (ymd a))
    /\ exists c, __add__ impl b (PyInt k) = Ok c /\ __eq__ c (ODate a) = Ok true.
Proof.
  intros Va Vb La Lb. exists (ordinal a - ordinal b).
  split; [apply sub_valid; assumption | ].
  split; [rewrite sub_valid by assumption; f_equal; lia | ].
  split; [intros P; apply days_apart; try assumption; lia | ].
  split; [intros P; apply days_apart; try assumption; lia | ].
  pose proof (ordinal_range a Va La) as Ra.
  destruct (add_in_range impl b (PInt (ordinal a - ordinal b)) Vb Lb)
    with (v := PyInt (ordinal a - ordinal b)) as (c & E & Vc & Lc & O);
    [cbn [int_val]; lia | reflexivity | ].
  cbn [int_val] in O. exists c. split; [exact E | ].
  unfold __eq__. f_equal. apply tuple_eq_3.
  assert (ordinal c = ordinal a) as Oc by lia.
  destruct (ymd2ord_inj _ _ _ _ _ _ Vc Va Oc) as (Ey & Em & Ed). auto.
Qed.

Lemma C5_difference_witness :
  __sub__ datetime.accelerated (mkDate (PInt 16) (PInt 4) (PInt 2025))
          (ODate (mkDate (PInt 1) (PInt 1) (PInt 2025))) = Ok 105
  /\ exists c,
      __add__ datetime.accelerated (mkDate (PInt 1) (PInt 1) (PInt 2025))
              (PyInt 105) = Ok c
      /\ __eq__ c (ODate (mkDate (PInt 16) (PInt 4) (PInt 2025))) = Ok true.
Proof.
  destruct (C5_difference datetime.accelerated
                          (mkDate (PInt 16) (PInt 4) (PInt 2025))
                          (mkDate (PInt 1) (PInt 1) (PInt 2025)))
    as (k & S & _ & _ & _ & c & A & E).
  - unfold valid_Date, valid_triple; cbn; lia.
  - unfold valid_Date, valid_triple; cbn; lia.
  - cbn; lia.
  - cbn; lia.
  - assert (k = 105) as -> by (vm_compute in S; congruence).
    split; [reflexivity | ]. exists c. split; [exact A | exact E].
Defined.

(** C7. For a valid date of a year up to 9999 that lies [k] days after
    Monday 0001-01-01, [day_of_week] returns entry [k mod 7] of the table of
    the seven Ukrainian names, which starts with Monday; 16.04.2025 is a
    Wednesday, "Середа". *)
Theorem C7_day_of_week :
  (forall (impl : datetime.implementation) (a : Date) (k : nat),
      valid_Date a -> year_of a <= 9999 -> ymd a = days_after k (1, 1, 1) ->
      exists name,
        nth_error days (Z.to_nat (Z.of_nat k mod 7)) = Some name
        /\ day_of_week impl a = Ok name)
  /\ days = ["Понеділок"; "Вівторок"; "Середа"; "Четвер"; "П’ятниця";
             "Субота"; "Неділя"]
  /\ (forall impl,
         (a <- create 1 1 1 ;; day_of_week impl a) = Ok "Понеділок"
         /\ (a <- create 16 4 2025 ;; day_of_week impl a) = Ok "Середа").
Proof.
  split; [ | split; [reflexivity | intros []; split; reflexivity]].
  intros impl a k V L K.
  assert (ordinal a = 1 + Z.of_nat k) as O.
  { destruct (days_after_ord k (1, 1, 1)) as [_ E];
      [unfold valid_ymd, valid_triple; cbn; lia | ].
    rewrite <- K in E. exact E. }
  unfold day_of_week. rewrite to_date_valid by assumption. cbn [bind].
  unfold datetime.weekday, datetime.toordinal.
  cbn [datetime.year datetime.month datetime.day]. fold (ordinal a).
  replace ((ordinal a + 6) mod 7) with (Z.of_nat k mod 7)
    by (rewrite O; Z.div_mod_to_equations; lia).
  pose proof (Z.mod_pos_bound (Z.of_nat k) 7 ltac:(lia)) as B.
  set (w := Z.of_nat k mod 7) in *. clearbody w.
  assert (w = 0 \/ w = 1 \/ w = 2 \/ w = 3 \/ w = 4 \/ w = 5 \/ w = 6)
    as W by lia.
  repeat (destruct W as [W | W]); subst w; eexists; split; reflexivity.
Qed.

Lemma C7_day_of_week_witness :
  exists name,
    nth_error days 2 = Some name
    /\ day_of_week datetime.accelerated (mkDate (PInt 3) (PInt 1) (PInt 1))
       = Ok name.
Proof.
  destruct (proj1 C7_day_of_week datetime.accelerated
                  (mkDate (PInt 3) (PInt 1) (PInt 1)) 2%nat)
    as (name & N & D).
  - unfold valid_Date, valid_triple; cbn; lia.
  - cbn; lia.
  - reflexivity.
  - exists name. split; [exact N | exact D].
Defined.

(** C10. The constructor accepts every valid triple, however large the
    year; but for a valid date of a year above 9999 the difference (on either
    side), the day offset and the day of the week all raise an exception
    instead of returning: a [ValueError] of [datetime.date], or the
    [OverflowError] of the accelerated implementation when the year does not
    fit a C [int]. *)
Theorem C10_beyond_year_9999 :
  (forall day month year : Z,
      valid_triple day month year ->
      exists a, create day month year = Ok a /\ year_of a = year)
  /\ (forall (impl : datetime.implementation) (a : Date),
         valid_Date a -> 9999 < year_of a ->
         (forall b, raises (__sub__ impl a (ODate b))
                           (year_error impl (year_of a)))
         /\ (forall b, fails (__sub__ impl b (ODate a)))
         /\ (forall n, isinstance_int n = true ->
                       raises (__add__ impl a n) (year_error impl (year_of a)))
         /\ raises (day_of_week impl a) (year_error impl (year_of a)))
  /\ create 1 1 10000 = Ok (mkDate (PInt 1) (PInt 1) (PInt 10000)).
Proof.
  split; [ | split; [ | reflexivity]].
  - intros day month year V. eexists. split; [apply create_valid, V | reflexivity].
  - intros impl a V G.
    destruct (to_date_beyond impl a V G) as [msg E].
    split; [ | split; [ | split]].
    + intros b. unfold __sub__. rewrite E. eexists; reflexivity.
    + intros b. unfold __sub__.
      destruct (to_date_cases impl b) as [[x X] | [e X]];
        rewrite X; cbn [bind].
      * rewrite E. eexists; reflexivity.
      * eexists; reflexivity.
    + intros n I. unfold __add__, isinstance_int in *.
      destruct (as_int n); [ | discriminate].
      rewrite E. eexists; reflexivity.
    + unfold day_of_week. rewrite E. eexists; reflexivity.
Qed.

Lemma C10_beyond_year_9999_witness :
  raises (__add__ datetime.accelerated (mkDate (PInt 1) (PInt 1) (PInt 10000))
                  (PyInt 0)) ValueError
  /\ raises (day_of_week datetime.accelerated
                         (mkDate (PInt 1) (PInt 1) (PInt 10000))) ValueError.
Proof.
  destruct (proj1 (proj2 C10_beyond_year_9999) datetime.accelerated
              (mkDate (PInt 1) (PInt 1) (PInt 10000)))
    as (_ & _ & A & W).
  - unfold valid_Date, valid_triple; cbn; lia.
  - cbn; lia.
  - split; [apply A; reflexivity | exact W].
Defined.

(** The demonstration of [main.py]: [d1 - d3] and [d3 + 10]. *)
Example demo_difference (impl : datetime.implementation) :
  (d1 <- create 16 4 2025 ;; d3 <- create 1 1 2025 ;; __sub__ impl d1 (ODate d3))
  = Ok 105.
Proof. destruct impl; reflexivity. Qed.

Example demo_offset (impl : datetime.implementation) :
  (d3 <- create 1 1 2025 ;; d <- __add__ impl d3 (PyInt 10) ;; __str__ d)
  = Ok "11.01.2025".
Proof. destruct impl; vm_compute; reflexivity. Qed.

(** Operands of another type are left to Python's dispatch. *)
Example other_operand (impl : datetime.implementation) (a : Date) :
  __eq__ a (OVal (PyInt 1)) = NotImplemented
  /\ __lt__ a (OVal PyNone) = NotImplemented
  /\ __sub__ impl a (OVal (PyInt 1)) = NotImplemented
  /\ __add__ impl a (PyStr "1") = NotImplemented.
Proof. repeat split. Qed.

(** * Further properties of the class *)

(** ** What a successful operation tells *)

Section Inversion.

Import datetime.

Lemma bind_Ok {A B : Type} (r : result A) (k : A -> result B) (b : B) :
  bind r k = Ok b -> exists a, r = Ok a /\ k a = Ok b.
Proof.
  destruct r as [a | | e]; cbn [bind]; [ | discriminate ..].
  intros E. exists a. auto.
Qed.

Lemma check_date_fields_inv (y m d : Z) (x : date) :
  _check_date_fields y m d = Ok x ->
  x = mkdate y m d /\ valid_triple d m y /\ y <= 9999.
Proof.
  unfold _check_date_fields, MINYEAR, MAXYEAR.
  destruct (Z.leb_spec 1 y); [ | discriminate].
  destruct (Z.leb_spec y 9999); [ | discriminate].
  cbn [andb negb].
  destruct (Z.leb_spec 1 m); [ | discriminate].
  destruct (Z.leb_spec m 12); [ | discriminate].
  cbn [andb negb].
  destruct (Z.leb_spec 1 d); [ | discriminate].
  destruct (Z.leb_spec d (_days_in_month y m)); [ | discriminate].
  cbn [andb negb]. intros [= <-].
  rewrite days_in_month_spec in * by lia.
  split; [reflexivity | split; [unfold valid_triple; lia | lia]].
Qed.

Lemma as_C_int_inv (z z' : Z) : as_C_int z = Ok z' -> z' = z.
Proof.
  unfold as_C_int. destruct (_ <? _); [discriminate | ].
  destruct (_ >? _); [discriminate | ]. intros [= <-]. reflexivity.
Qed.

Lemma date_new_inv (impl : implementation) (y m d : Z) (x : date) :
  date_new impl y m d = Ok x ->
  x = mkdate y m d /\ valid_triple d m y /\ y <= 9999.
Proof.
  destruct impl; cbn [date_new]; [apply check_date_fields_inv | ].
  intros E.
  apply bind_Ok in E. destruct E as (y' & Ey & E). apply as_C_int_inv in Ey.
  apply bind_Ok in E. destruct E as (m' & Em & E). apply as_C_int_inv in Em.
  apply bind_Ok in E. destruct E as (d' & Ed & E). apply as_C_int_inv in Ed.
  subst. apply check_date_fields_inv, E.
Qed.

(** [datetime.date] accepts the fields of a [Date] exactly when the date is
    valid and its year is at most 9999. *)
Lemma to_date_inv (impl : implementation) (a : Date) (x : date) :
  to_date impl a = Ok x ->
  valid_Date a /\ year_of a <= 9999
  /\ x = mkdate (year_of a) (month_of a) (day_of a).
Proof.
  intros E. apply date_new_inv in E. unfold valid_Date. tauto.
Qed.

Lemma sub_inv (impl : implementation) (a b : Date) (k : Z) :
  __sub__ impl a (ODate b) = Ok k ->
  valid_Date a /\ year_of a <= 9999 /\ valid_Date b /\ year_of b <= 9999
  /\ k = ordinal a - ordinal b.
Proof.
  intros E. pose proof E as K. unfold __sub__ in E.
  apply bind_Ok in E. destruct E as (d1 & E1 & E).
  apply bind_Ok in E. destruct E as (d2 & E2 & _).
  apply to_date_inv in E1. destruct E1 as (Va & La & _).
  apply to_date_inv in E2. destruct E2 as (Vb & Lb & _).
  rewrite (sub_valid impl a b Va Vb La Lb) in K.
  repeat (split; [assumption | ]). congruence.
Qed.

End Inversion.

Section Chronology.

Import datetime.

#[local] Arguments _is_leap : simpl never.

(** Within one year, an earlier month means an earlier day of the year. *)
Lemma day_of_year_lt (y m d m' d' : Z) :
  1 <= m <= 12 -> 1 <= d <= _days_in_month y m ->
  1 <= m' <= 12 -> 1 <= d' <= _days_in_month y m' ->
  m < m' ->
  _days_before_month y m + d < _days_before_month y m' + d'.
Proof.
  intros H H'. revert H'. month_cases m; intros Hd H'; revert Hd;
    month_cases m'; unfold _days_before_month, _days_in_month; tables;
    destruct (_is_leap y); tables; lia.
Qed.

Lemma ymd2ord_lt (y m d y' m' d' : Z) :
  valid_triple d m y -> valid_triple d' m' y' ->
  y < y' \/ (y = y' /\ (m < m' \/ (m = m' /\ d < d'))) ->
  _ymd2ord y m d < _ymd2ord y' m' d'.
Proof.
  intros (Hy & Hm & Hd) (Hy' & Hm' & Hd') L.
  rewrite <- days_in_month_spec in Hd, Hd' by assumption.
  pose proof (day_of_year_bounds y m d Hm Hd) as B.
  pose proof (day_of_year_bounds y' m' d' Hm' Hd') as B'.
  unfold _ymd2ord.
  destruct L as [L | [-> [L | [-> L]]]].
  - pose proof (days_before_year_succ y).
    pose proof (days_before_year_mono (y + 1) y'). lia.
  - pose proof (day_of_year_lt y' m d m' d' Hm Hd Hm' Hd' L). lia.
  - lia.
Qed.

(** The day number orders the valid dates as the calendar does. *)
Lemma ordinal_lt (a b : Date) :
  valid_Date a -> valid_Date b -> (chrono_lt a b <-> ordinal a < ordinal b).
Proof.
  intros Va Vb. split; [apply ymd2ord_lt; assumption | ].
  intros L. unfold chrono_lt.
  destruct (Z.lt_trichotomy (year_of a) (year_of b)) as [Y | [Y | Y]];
    [auto | | ].
  - destruct (Z.lt_trichotomy (month_of a) (month_of b)) as [M | [M | M]];
      [auto | | ].
    + destruct (Z.lt_trichotomy (day_of a) (day_of b)) as [D | [D | D]];
        [auto | | ].
      * exfalso. unfold ordinal in L. rewrite Y, M, D in L. lia.
      * exfalso. assert (chrono_lt b a) as C by (unfold chrono_lt; auto).
        apply (ymd2ord_lt _ _ _ _ _ _ Vb Va) in C. unfold ordinal in L. lia.
    + exfalso. assert (chrono_lt b a) as C by (unfold chrono_lt; auto).
      apply (ymd2ord_lt _ _ _ _ _ _ Vb Va) in C. unfold ordinal in L. lia.
  - exfalso. assert (chrono_lt b a) as C by (unfold chrono_lt; auto).
    apply (ymd2ord_lt _ _ _ _ _ _ Vb Va) in C. unfold ordinal in L. lia.
Qed.

Lemma ordinal_eq (a b : Date) :
  valid_Date a -> valid_Date b -> (same_date a b <-> ordinal a = ordinal b).
Proof.
  intros Va Vb. unfold same_date, __eq__. split.
  - intros [= E]. apply tuple_eq_3 in E. destruct E as (D & M & Y).
    unfold ordinal. rewrite D, M, Y. reflexivity.
  - intros E. f_equal. apply tuple_eq_3.
    destruct (ymd2ord_inj _ _ _ _ _ _ Va Vb E) as (Y & M & D). auto.
Qed.

Lemma lt_iff (a b : Date) : __lt__ a (ODate b) = Ok true <-> chrono_lt a b.
Proof.
  unfold __lt__. split.
  - intros [= E]. apply tuple_lt_3, E.
  - intros C. f_equal. apply tuple_lt_3, C.
Qed.

Lemma gt_iff (a b : Date) : __gt__ a (ODate b) = Ok true <-> chrono_lt b a.
Proof.
  unfold __gt__. split.
  - intros [= E]. apply tuple_gt_3, E.
  - intros C. f_equal. apply tuple_gt_3, C.
Qed.

(** Two valid dates of integer fields with the same day number are the same
    record. *)
Lemma from_ints_ordinal_inj (a b : Date) :
  valid_Date a -> valid_Date b -> from_ints a -> from_ints b ->
  ordinal a = ordinal b -> a = b.
Proof.
  intros Va Vb Fa Fb E.
  destruct (ymd2ord_inj _ _ _ _ _ _ Va Vb E) as (Y & M & D).
  rewrite Fa, Fb. congruence.
Qed.

(** What a returned sum tells about its operands. *)
Lemma add_inv (impl : implementation) (a : Date) (v : pyval) (c : Date) :
  __add__ impl a v = Ok c ->
  exists n,
    as_int v = Some n /\ valid_Date a /\ year_of a <= 9999
    /\ valid_Date c /\ year_of c <= 9999 /\ from_ints c
    /\ ordinal c = ordinal a + int_val n.
Proof.
  intros E. pose proof E as K. unfold __add__ in E.
  destruct (as_int v) as [n | ] eqn:I; [ | discriminate]. exists n.
  apply bind_Ok in E. destruct E as (d0 & E0 & E).
  apply to_date_inv in E0. destruct E0 as (Va & La & _).
  apply bind_Ok in E. destruct E as (td & _ & E).
  apply bind_Ok in E. destruct E as (d & _ & E).
  apply create_inv in E. destruct E as (Ec & _).
  assert (from_ints c) as F by (rewrite Ec; reflexivity).
  destruct (Z.lt_ge_cases (ordinal a + int_val n) 1) as [Lo | Lo].
  { destruct (add_overflow impl a n Va La (or_introl Lo) v I) as [msg R].
    congruence. }
  destruct (Z.lt_ge_cases _MAXORDINAL (ordinal a + int_val n)) as [Hi | Hi].
  { destruct (add_overflow impl a n Va La (or_intror Hi) v I) as [msg R].
    congruence. }
  destruct (add_in_range impl a n Va La (conj Lo Hi) v I)
    as (c' & E' & Vc & Lc & O).
  assert (c' = c) as -> by congruence. auto 10.
Qed.

(** The sum is determined by the day number it reaches. *)
Lemma add_reaches (impl : implementation) (a : Date) (n : Z) (c : Date) :
  valid_Date a -> year_of a <= 9999 ->
  valid_Date c -> year_of c <= 9999 -> from_ints c ->
  ordinal c = ordinal a + n ->
  __add__ impl a (PyInt n) = Ok c.
Proof.
  intros Va La Vc Lc Fc O.
  pose proof (ordinal_range c Vc Lc) as R. rewrite O in R.
  destruct (add_in_range impl a (PInt n) Va La R (PyInt n) eq_refl)
    as (c' & E & Vc' & Lc' & O').
  rewrite E. f_equal.
  destruct (add_inv _ _ _ _ E) as (n' & _ & _ & _ & _ & _ & Fc' & _).
  apply from_ints_ordinal_inj; try assumption. cbn [int_val] in O'. lia.
Qed.

End Chronology.

(** ** Construction: which error, and the invariant *)

(** Of several wrong fields the constructor reports the first in the order
    year, month, day: a year below 1 whatever the month and the day are, then
    a month outside 1..12 whatever the day is, then a day below 1. *)
Theorem init_reports_first_violation (day month year : Z) :
  (year <= 0 ->
   create day month year = Raise (mkExn ValueError "Рік повинен бути додатнім."))
  /\ (0 < year -> month < 1 \/ 12 < month ->
      create day month year
      = Raise (mkExn ValueError "Місяць повинен бути в діапазоні 1-12."))
  /\ (0 < year -> 1 <= month <= 12 -> day < 1 ->
      create day month year
      = Raise (mkExn ValueError "День повинен бути додатнім.")).
Proof.
  unfold create, __init__. cbn [as_int int_val].
  split; [ | split].
  - intros H. destruct (Z.leb_spec year 0); [reflexivity | lia].
  - intros Hy Hm. destruct (Z.leb_spec year 0); [lia | ].
    destruct (Z.ltb_spec month 1); [reflexivity | ].
    destruct (Z.gtb_spec month 12); [reflexivity | lia].
  - intros Hy Hm Hd. destruct (Z.leb_spec year 0); [lia | ].
    destruct (Z.ltb_spec month 1); [lia | ].
    destruct (Z.gtb_spec month 12); [lia | ].
    cbn [orb]. destruct (Z.ltb_spec day 1); [reflexivity | lia].
Qed.

Lemma init_reports_first_violation_witness :
  create 0 13 0 = Raise (mkExn ValueError "Рік повинен бути додатнім.")
  /\ create 0 13 2025
     = Raise (mkExn ValueError "Місяць повинен бути в діапазоні 1-12.")
  /\ create (-3) 2 2025 = Raise (mkExn ValueError "День повинен бути додатнім.").
Proof.
  split; [ | split].
  - apply (proj1 (init_reports_first_violation 0 13 0)). lia.
  - apply (proj1 (proj2 (init_reports_first_violation 0 13 2025))); lia.
  - apply (proj2 (proj2 (init_reports_first_violation (-3) 2 2025))); lia.
Defined.

(** Every [Date] that the constructor or [+] returns satisfies the
    invariant of the class.  A constructed date is rebuilt from its own
    fields; a sum has genuine integers for fields and a year up to 9999. *)
Theorem returned_dates_are_valid :
  (forall (vd vm vy : pyval) (a : Date),
      __init__ vd vm vy = Ok a ->
      valid_Date a
      /\ __init__ (val_of (_day a)) (val_of (_month a)) (val_of (_year a)) = Ok a)
  /\ (forall (impl : datetime.implementation) (a : Date) (v : pyval) (c : Date),
         __add__ impl a v = Ok c ->
         valid_Date c /\ year_of c <= 9999 /\ from_ints c).
Proof.
  split.
  - intros vd vm vy a E. apply init_inv in E. destruct E as (_ & _ & _ & V).
    split; [exact V | ]. destruct a as [d m y].
    apply init_valid; [exact V | | | ]; cbn [_day _month _year];
      [destruct d | destruct m | destruct y]; reflexivity.
  - intros impl a v c E. apply add_inv in E.
    destruct E as (n & _ & _ & _ & V & L & F & _). auto.
Qed.

Lemma returned_dates_are_valid_witness :
  valid_Date (mkDate (PBool true) (PInt 2) (PInt 2024))
  /\ __init__ (PyBool true) (PyInt 2) (PyInt 2024)
     = Ok (mkDate (PBool true) (PInt 2) (PInt 2024)).
Proof.
  apply (proj1 returned_dates_are_valid (PyBool true) (PyInt 2) (PyInt 2024)).
  reflexivity.
Defined.

(** ** The order of dates *)

(** Of [a < b], [a == b] and [a > b] exactly one answers [True], for any two
    dates, and [a > b] answers what [b < a] does. *)
Theorem order_trichotomy (a b : Date) :
  (__lt__ a (ODate b) = Ok true \/ same_date a b \/ __gt__ a (ODate b) = Ok true)
  /\ ~ (__lt__ a (ODate b) = Ok true /\ same_date a b)
  /\ ~ (__lt__ a (ODate b) = Ok true /\ __gt__ a (ODate b) = Ok true)
  /\ ~ (same_date a b /\ __gt__ a (ODate b) = Ok true)
  /\ __gt__ a (ODate b) = __lt__ b (ODate a).
Proof.
  unfold same_date. rewrite lt_iff, gt_iff.
  assert (__eq__ a (ODate b) = Ok true
          <-> day_of a = day_of b /\ month_of a = month_of b
              /\ year_of a = year_of b) as ->.
  { unfold __eq__. split.
    - intros [= E]. apply tuple_eq_3, E.
    - intros E. f_equal. apply tuple_eq_3, E. }
  unfold chrono_lt. repeat split; try lia.
  unfold __gt__, __lt__. f_equal.
  destruct (tuple_lt _ _) eqn:L.
  - apply tuple_gt_3. apply tuple_lt_3 in L. exact L.
  - destruct (tuple_gt _ _) eqn:G; [ | reflexivity].
    apply tuple_gt_3 in G. apply tuple_lt_3 in G. congruence.
Qed.

(** [<] is transitive and irreflexive, [==] is an equivalence, and [<]
    does not tell equal dates apart. *)
Theorem order_is_strict (a b c : Date) :
  (__lt__ a (ODate b) = Ok true -> __lt__ b (ODate c) = Ok true ->
   __lt__ a (ODate c) = Ok true)
  /\ __lt__ a (ODate a) = Ok false
  /\ same_date a a
  /\ (same_date a b -> same_date b a)
  /\ (same_date a b -> same_date b c -> same_date a c)
  /\ (same_date a b -> __lt__ a (ODate c) = __lt__ b (ODate c)).
Proof.
  assert (forall x y, same_date x y
                      <-> day_of x = day_of y /\ month_of x = month_of y
                          /\ year_of x = year_of y) as S.
  { intros x y. unfold same_date, __eq__. split.
    - intros [= E]. apply tuple_eq_3, E.
    - intros E. f_equal. apply tuple_eq_3, E. }
  rewrite !S, !lt_iff. unfold chrono_lt.
  split; [lia | ]. split.
  { unfold __lt__. f_equal. destruct (tuple_lt _ _) eqn:L; [ | reflexivity].
    apply tuple_lt_3 in L. lia. }
  split; [lia | ]. split; [lia | ]. split; [lia | ].
  intros (D & M & Y). unfold __lt__. rewrite D, M, Y. reflexivity.
Qed.

Lemma order_is_strict_witness :
  __lt__ (mkDate (PInt 29) (PInt 2) (PInt 2024))
         (ODate (mkDate (PInt 16) (PInt 4) (PInt 2025))) = Ok true.
Proof.
  apply (proj1 (order_is_strict (mkDate (PInt 29) (PInt 2) (PInt 2024))
                                (mkDate (PInt 1) (PInt 1) (PInt 2025))
                                (mkDate (PInt 16) (PInt 4) (PInt 2025))));
    reflexivity.
Defined.

(** ** Differences *)

Section Differences.

Ltac weekday_cases w :=
  let H := fresh "Hw" in
  assert (w = 0 \/ w = 1 \/ w = 2 \/ w = 3 \/ w = 4 \/ w = 5 \/ w = 6)
    as H by lia;
  repeat (destruct H as [H | H]); subst w.

Lemma day_of_week_index (impl : datetime.implementation) (a : Date) :
  valid_Date a -> year_of a <= 9999 ->
  day_of_week impl a = getitem days ((ordinal a + 6) mod 7).
Proof.
  intros V L. unfold day_of_week. rewrite to_date_valid by assumption.
  reflexivity.
Qed.

Lemma weekday_name (w : Z) :
  0 <= w < 7 -> exists name, getitem days w = Ok name.
Proof. intros H. weekday_cases w; eexists; reflexivity. Qed.

(** The seven names are distinct. *)
Lemma weekday_name_inj (w w' : Z) :
  0 <= w < 7 -> 0 <= w' < 7 -> getitem days w = getitem days w' -> w = w'.
Proof.
  intros H H'. weekday_cases w; weekday_cases w';
    intros E; try reflexivity; vm_compute in E; discriminate E.
Qed.

(** The difference returns exactly for two valid dates of years up to 9999,
    and so does the day of the week for one. *)
Theorem difference_defined_iff (impl : datetime.implementation) (a b : Date) :
  ((exists k, __sub__ impl a (ODate b) = Ok k)
   <-> valid_Date a /\ year_of a <= 9999 /\ valid_Date b /\ year_of b <= 9999)
  /\ ((exists name, day_of_week impl a = Ok name)
      <-> valid_Date a /\ year_of a <= 9999).
Proof.
  split; split.
  - intros [k E]. apply sub_inv in E. tauto.
  - intros (Va & La & Vb & Lb). eexists. apply sub_valid; assumption.
  - intros [name E]. unfold day_of_week in E. apply bind_Ok in E.
    destruct E as (d & E & _). apply to_date_inv in E. tauto.
  - intros [Va La]. rewrite day_of_week_index by assumption.
    apply weekday_name, Z.mod_pos_bound. lia.
Qed.

Lemma difference_defined_iff_witness :
  exists name,
    day_of_week datetime.accelerated (mkDate (PInt 31) (PInt 12) (PInt 9999))
    = Ok name.
Proof.
  apply (proj2 (proj2 (difference_defined_iff
                         datetime.accelerated
                         (mkDate (PInt 31) (PInt 12) (PInt 9999))
                         (mkDate (PInt 31) (PInt 12) (PInt 9999))))).
  split; [unfold valid_Date, valid_triple; cbn; lia | cbn; lia].
Defined.

(** The sign of [a - b] is the order of [a] and [b]: negative exactly when
    [a < b], zero exactly when [a == b], positive exactly when [a > b]. *)
Theorem difference_sign (impl : datetime.implementation) (a b : Date) (k : Z) :
  __sub__ impl a (ODate b) = Ok k ->
  __lt__ a (ODate b) = Ok (k <? 0)
  /\ __eq__ a (ODate b) = Ok (k =? 0)
  /\ __gt__ a (ODate b) = Ok (0 <? k).
Proof.
  intros E. apply sub_inv in E. destruct E as (Va & La & Vb & Lb & ->).
  pose proof (ordinal_lt a b Va Vb) as Lt.
  pose proof (ordinal_lt b a Vb Va) as Gt.
  pose proof (ordinal_eq a b Va Vb) as Eq.
  rewrite <- lt_iff in Lt. rewrite <- gt_iff in Gt. unfold same_date in Eq.
  split; [ | split].
  - destruct (Z.ltb_spec (ordinal a - ordinal b) 0) as [H | H].
    + apply Lt. lia.
    + unfold __lt__ in *. destruct (tuple_lt _ _); [ | reflexivity].
      exfalso. assert (ordinal a < ordinal b) by (apply Lt; reflexivity). lia.
  - destruct (Z.eqb_spec (ordinal a - ordinal b) 0) as [H | H].
    + apply Eq. lia.
    + unfold __eq__ in *. destruct (tuple_eq _ _); [ | reflexivity].
      exfalso. assert (ordinal a = ordinal b) by (apply Eq; reflexivity). lia.
  - destruct (Z.ltb_spec 0 (ordinal a - ordinal b)) as [H | H].
    + apply Gt. lia.
    + unfold __gt__ in *. destruct (tuple_gt _ _); [ | reflexivity].
      exfalso. assert (ordinal b < ordinal a) by (apply Gt; reflexivity). lia.
Qed.

Lemma difference_sign_witness :
  __lt__ (mkDate (PInt 29) (PInt 2) (PInt 2024))
         (ODate (mkDate (PInt 16) (PInt 4) (PInt 2025))) = Ok true.
Proof.
  apply (difference_sign datetime.accelerated
           (mkDate (PInt 29) (PInt 2) (PInt 2024))
           (mkDate (PInt 16) (PInt 4) (PInt 2025)) (-412)).
  reflexivity.
Defined.

(** Differences add up along a chain of dates, a date is 0 days from
    itself, and no difference exceeds the 3652058 days between 0001-01-01 and
    9999-12-31. *)
Theorem difference_chain (impl : datetime.implementation) (a b c : Date) (k1 k2 : Z) :
  __sub__ impl a (ODate b) = Ok k1 -> __sub__ impl b (ODate c) = Ok k2 ->
  __sub__ impl a (ODate c) = Ok (k1 + k2)
  /\ __sub__ impl a (ODate a) = Ok 0
  /\ -3652058 <= k1 <= 3652058.
Proof.
  intros E1 E2. apply sub_inv in E1, E2.
  destruct E1 as (Va & La & Vb & Lb & ->). destruct E2 as (_ & _ & Vc & Lc & ->).
  rewrite !sub_valid by assumption.
  pose proof (ordinal_range a Va La). pose proof (ordinal_range b Vb Lb).
  unfold datetime._MAXORDINAL in *.
  split; [f_equal; lia | ]. split; [f_equal; lia | lia].
Qed.

Lemma difference_chain_witness :
  __sub__ datetime.accelerated (mkDate (PInt 16) (PInt 4) (PInt 2025))
          (ODate (mkDate (PInt 29) (PInt 2) (PInt 2024))) = Ok (105 + 307).
Proof.
  apply (difference_chain datetime.accelerated
           (mkDate (PInt 16) (PInt 4) (PInt 2025))
           (mkDate (PInt 1) (PInt 1) (PInt 2025))
           (mkDate (PInt 29) (PInt 2) (PInt 2024)) 105 307); reflexivity.
Defined.

End Differences.

(** ** Offsets *)

Section Offsets.

(** Adding 0 days to a valid date of a year up to 9999 returns an equal
    date, the very same record when the fields are genuine integers. *)
Theorem offset_zero (impl : datetime.implementation) (a : Date) :
  valid_Date a -> year_of a <= 9999 ->
  exists c, __add__ impl a (PyInt 0) = Ok c /\ same_date c a
            /\ (from_ints a -> c = a).
Proof.
  intros V L.
  pose proof (ordinal_range a V L) as R.
  destruct (add_in_range impl a (PInt 0) V L) with (v := PyInt 0)
    as (c & E & Vc & Lc & O); [cbn [int_val]; lia | reflexivity | ].
  cbn [int_val] in O. exists c. split; [exact E | ].
  split; [apply ordinal_eq; [assumption .. | lia] | ].
  intros F. destruct (add_inv _ _ _ _ E) as (_ & _ & _ & _ & _ & _ & Fc & _).
  apply from_ints_ordinal_inj; try assumption. lia.
Qed.

Lemma offset_zero_witness :
  exists c,
    __add__ datetime.accelerated (mkDate (PInt 29) (PInt 2) (PInt 2024)) (PyInt 0)
    = Ok c
    /\ same_date c (mkDate (PInt 29) (PInt 2) (PInt 2024)).
Proof.
  destruct (offset_zero datetime.accelerated
                        (mkDate (PInt 29) (PInt 2) (PInt 2024)))
    as (c & E & S & _).
  - unfold valid_Date, valid_triple; cbn; lia.
  - cbn; lia.
  - exists c. split; [exact E | exact S].
Defined.

(** Whenever [a + n] returns [c], the difference [c - a] is [n] and adding
    [-n] to [c] leads back to a date equal to [a]. *)
Theorem offset_undo (impl : datetime.implementation) (a c : Date) (n : Z) :
  __add__ impl a (PyInt n) = Ok c ->
  __sub__ impl c (ODate a) = Ok n
  /\ exists a', __add__ impl c (PyInt (- n)) = Ok a' /\ same_date a' a.
Proof.
  intros E. apply add_inv in E.
  destruct E as (n' & [= <-] & Va & La & Vc & Lc & Fc & O).
  cbn [int_val] in O.
  split; [rewrite sub_valid by assumption; f_equal; lia | ].
  pose proof (ordinal_range a Va La) as R.
  destruct (add_in_range impl c (PInt (- n)) Vc Lc) with (v := PyInt (- n))
    as (a' & E' & Va' & La' & O'); [cbn [int_val]; lia | reflexivity | ].
  cbn [int_val] in O'. exists a'. split; [exact E' | ].
  apply ordinal_eq; [assumption .. | lia].
Qed.

Lemma offset_undo_witness :
  __sub__ datetime.accelerated (mkDate (PInt 11) (PInt 1) (PInt 2025))
          (ODate (mkDate (PInt 1) (PInt 1) (PInt 2025))) = Ok 10.
Proof.
  apply (offset_undo datetime.accelerated
           (mkDate (PInt 1) (PInt 1) (PInt 2025))
           (mkDate (PInt 11) (PInt 1) (PInt 2025)) 10).
  reflexivity.
Defined.

(** Two offsets in a row are the offset by their sum. *)
Theorem offset_compose (impl : datetime.implementation) (a b c : Date)
        (n m : Z) :
  __add__ impl a (PyInt n) = Ok b -> __add__ impl b (PyInt m) = Ok c ->
  __add__ impl a (PyInt (n + m)) = Ok c.
Proof.
  intros E1 E2. apply add_inv in E1, E2.
  destruct E1 as (n' & [= <-] & Va & La & Vb & Lb & Fb & O1).
  destruct E2 as (m' & [= <-] & _ & _ & Vc & Lc & Fc & O2).
  cbn [int_val] in *. apply add_reaches; try assumption. lia.
Qed.

Lemma offset_compose_witness :
  __add__ datetime.accelerated (mkDate (PInt 25) (PInt 12) (PInt 2024))
          (PyInt (10 + 60))
  = Ok (mkDate (PInt 5) (PInt 3) (PInt 2025)).
Proof.
  apply (offset_compose datetime.accelerated
           (mkDate (PInt 25) (PInt 12) (PInt 2024))
           (mkDate (PInt 4) (PInt 1) (PInt 2025))
           (mkDate (PInt 5) (PInt 3) (PInt 2025)) 10 60); reflexivity.
Defined.

(** An offset keeps the order of two dates, and [a + n] is later than [a]
    exactly when [n] is positive. *)
Theorem offset_monotone (impl : datetime.implementation) (a b a' b' : Date)
        (n : Z) :
  __add__ impl a (PyInt n) = Ok a' -> __add__ impl b (PyInt n) = Ok b' ->
  __lt__ a' (ODate b') = __lt__ a (ODate b)
  /\ __gt__ a' (ODate a) = Ok (0 <? n).
Proof.
  intros Ea Eb.
  apply add_inv in Ea, Eb.
  destruct Ea as (x & [= <-] & Va & La & Va' & La' & _ & Oa).
  destruct Eb as (y & [= <-] & Vb & Lb & Vb' & Lb' & _ & Ob).
  cbn [int_val] in *. split.
  - unfold __lt__. f_equal. apply eq_true_iff_eq. rewrite !tuple_lt_3.
    change (chrono_lt a' b' <-> chrono_lt a b).
    rewrite !ordinal_lt by assumption. lia.
  - unfold __gt__. f_equal. apply eq_true_iff_eq. rewrite tuple_gt_3.
    change (chrono_lt a a' <-> (0 <? n) = true).
    rewrite ordinal_lt, Z.ltb_lt by assumption. lia.
Qed.

Lemma offset_monotone_witness :
  __lt__ (mkDate (PInt 10) (PInt 3) (PInt 2024))
         (ODate (mkDate (PInt 2) (PInt 3) (PInt 2025)))
  = __lt__ (mkDate (PInt 29) (PInt 2) (PInt 2024))
           (ODate (mkDate (PInt 20) (PInt 2) (PInt 2025))).
Proof.
  apply (offset_monotone datetime.accelerated
           (mkDate (PInt 29) (PInt 2) (PInt 2024))
           (mkDate (PInt 20) (PInt 2) (PInt 2025))
           (mkDate (PInt 10) (PInt 3) (PInt 2024))
           (mkDate (PInt 2) (PInt 3) (PInt 2025)) 10); reflexivity.
Defined.

End Offsets.

(** ** The calendar seen through the class *)

Section Calendar.

Lemma weekday_of_difference (impl : datetime.implementation) (a b : Date)
      (k : Z) :
  __sub__ impl a (ODate b) = Ok k ->
  (day_of_week impl a = day_of_week impl b <-> (7 | k)).
Proof.
  intros E. apply sub_inv in E. destruct E as (Va & La & Vb & Lb & ->).
  rewrite !day_of_week_index by assumption.
  rewrite <- Z.mod_divide by lia.
  pose proof (Z.mod_pos_bound (ordinal a + 6) 7 ltac:(lia)) as Ba.
  pose proof (Z.mod_pos_bound (ordinal b + 6) 7 ltac:(lia)) as Bb.
  split.
  - intros E. apply weekday_name_inj in E; [ | assumption ..].
    revert E. Z.div_mod_to_equations. lia.
  - intros E. f_equal. revert E. Z.div_mod_to_equations. lia.
Qed.

(** Two dates fall on the same day of the week exactly when their
    difference is a multiple of 7. *)
Theorem same_weekday_iff (impl : datetime.implementation) (a b : Date) (k : Z) :
  __sub__ impl a (ODate b) = Ok k ->
  (day_of_week impl a = day_of_week impl b <-> (7 | k)).
Proof. apply weekday_of_difference. Qed.

Lemma same_weekday_iff_witness :
  day_of_week datetime.accelerated (mkDate (PInt 16) (PInt 4) (PInt 2025))
  = day_of_week datetime.accelerated (mkDate (PInt 1) (PInt 1) (PInt 2025)).
Proof.
  apply (same_weekday_iff datetime.accelerated
           (mkDate (PInt 16) (PInt 4) (PInt 2025))
           (mkDate (PInt 1) (PInt 1) (PInt 2025)) 105); [reflexivity | ].
  exists 15. reflexivity.
Defined.

(** From the 1st of January of a year to the 1st of January of the next
    there are 366 days when [_is_leap_year] holds of the year, and 365
    otherwise. *)
Theorem year_length (impl : datetime.implementation) (y : Z) :
  1 <= y <= 9998 ->
  (a <- create 1 1 (y + 1) ;; b <- create 1 1 y ;; __sub__ impl a (ODate b))
  = Ok (if _is_leap_year y then 366 else 365).
Proof.
  intros H.
  assert (forall z, 1 <= z -> valid_triple 1 1 z) as V
      by (intros z Hz; unfold valid_triple; cbn [max_day_for]; lia).
  rewrite !create_valid by (apply V; lia). cbn [bind].
  rewrite sub_valid by (try apply V; cbn; lia). f_equal.
  unfold ordinal, year_of, month_of, day_of. cbn [_day _month _year int_val].
  unfold datetime._ymd2ord. rewrite days_before_year_succ.
  change (datetime._is_leap y) with (_is_leap_year y).
  unfold datetime._days_before_month. tables.
  destruct (_is_leap_year y); cbn [Z.b2z]; lia.
Qed.

Lemma year_length_witness :
  (a <- create 1 1 1901 ;; b <- create 1 1 1900 ;;
   __sub__ datetime.accelerated a (ODate b)) = Ok 365.
Proof. apply (year_length datetime.accelerated 1900). lia. Defined.

(** In every year February has a 28th and no 30th, and it has a 29th
    exactly when [_is_leap_year] holds of the year. *)
Theorem february_length (y : Z) :
  1 <= y ->
  (exists a, create 28 2 y = Ok a)
  /\ ((exists a, create 29 2 y = Ok a) <-> _is_leap_year y = true)
  /\ raises (create 30 2 y) ValueError.
Proof.
  intros H.
  assert (forall d, valid_triple d 2 y
                    <-> 1 <= d <= (if _is_leap_year y then 29 else 28)) as V.
  { intros d. unfold valid_triple. cbn [max_day_for]. lia. }
  split; [ | split].
  - eexists. apply create_valid, V. destruct (_is_leap_year y); lia.
  - split.
    + intros [a E]. apply create_inv in E. destruct E as [_ E].
      apply V in E. destruct (_is_leap_year y); [reflexivity | lia].
    + intros L. eexists. apply create_valid, V. rewrite L. lia.
  - apply create_invalid. rewrite V. destruct (_is_leap_year y); lia.
Qed.

Lemma february_length_witness :
  (exists a, create 29 2 2000 = Ok a) <-> _is_leap_year 2000 = true.
Proof. apply (february_length 2000). lia. Defined.

Lemma leap_year_400 (y : Z) : _is_leap_year (y + 400) = _is_leap_year y.
Proof.
  unfold _is_leap_year.
  replace ((y + 400) mod 4) with (y mod 4)
    by (Z.div_mod_to_equations; lia).
  replace ((y + 400) mod 100) with (y mod 100)
    by (Z.div_mod_to_equations; lia).
  replace ((y + 400) mod 400) with (y mod 400)
    by (Z.div_mod_to_equations; lia).
  reflexivity.
Qed.

(** The calendar repeats after 400 years: the same day and month 400 years
    later is again a date, 146097 days later, on the same day of the week
    and in a year of the same kind. *)
Theorem cycle_of_400_years (impl : datetime.implementation) (d m y : Z)
        (a : Date) :
  create d m y = Ok a -> y + 400 <= 9999 ->
  exists b,
    create d m (y + 400) = Ok b
    /\ __sub__ impl b (ODate a) = Ok 146097
    /\ day_of_week impl b = day_of_week impl a
    /\ is_leap_year b = is_leap_year a.
Proof.
  intros E L. apply create_inv in E. destruct E as (-> & Hy & Hm & Hd).
  assert (valid_triple d m (y + 400)) as V.
  { unfold valid_triple. split; [lia | ]. split; [lia | ].
    replace (max_day_for m (y + 400)) with (max_day_for m y); [exact Hd | ].
    unfold max_day_for. rewrite leap_year_400. reflexivity. }
  exists (mkDate (PInt d) (PInt m) (PInt (y + 400))).
  split; [apply create_valid, V | ].
  assert (__sub__ impl (mkDate (PInt d) (PInt m) (PInt (y + 400)))
                  (ODate (mkDate (PInt d) (PInt m) (PInt y))) = Ok 146097) as S.
  { rewrite sub_valid;
      [ | exact V | unfold valid_Date, valid_triple; cbn; tauto | cbn; lia ..].
    f_equal. unfold ordinal, year_of, month_of, day_of.
    cbn [_day _month _year int_val].
    unfold datetime._ymd2ord, datetime._days_before_month.
    change datetime._is_leap with _is_leap_year. rewrite leap_year_400.
    unfold datetime._days_before_year. Z.div_mod_to_equations. lia. }
  split; [exact S | ]. split.
  - apply (weekday_of_difference impl _ _ _ S). exists 20871. reflexivity.
  - apply leap_year_400.
Qed.

Lemma cycle_of_400_years_witness :
  exists b,
    create 29 2 2000 = Ok b
    /\ __sub__ datetime.accelerated b (ODate (mkDate (PInt 29) (PInt 2) (PInt 1600)))
       = Ok 146097.
Proof.
  destruct (cycle_of_400_years datetime.accelerated 29 2 1600
              (mkDate (PInt 29) (PInt 2) (PInt 1600)))
    as (b & C & S & _).
  - reflexivity.
  - lia.
  - exists b. split; [exact C | exact S].
Defined.

End Calendar.

(** ** The text of a date *)

Section Text.

Lemma digit_inj (z z' : Z) :
  0 <= z <= 9 -> 0 <= z' <= 9 -> digit z = digit z' -> z = z'.
Proof.
  intros H H' E. unfold digit in E.
  apply (f_equal nat_of_ascii) in E.
  rewrite !nat_ascii_embedding in E by lia. lia.
Qed.

Lemma two_digits_inj (z z' : Z) :
  0 <= z < 100 -> 0 <= z' < 100 -> two_digits z = two_digits z' -> z = z'.
Proof.
  intros H H' E. unfold two_digits in E. injection E as E1 E2.
  apply digit_inj in E1;
    [ | split; [apply Z.div_pos | apply Z.lt_succ_r, Z.div_lt_upper_bound]; lia ..].
  apply digit_inj in E2; [ | pose proof (Z.mod_pos_bound z 10);
                            pose proof (Z.mod_pos_bound z' 10); lia ..].
  revert E1 E2. Z.div_mod_to_equations. lia.
Qed.

Lemma to_int_not_nil (z : Z) :
  Z.to_int z <> Decimal.Pos Decimal.Nil /\ Z.to_int z <> Decimal.Neg Decimal.Nil.
Proof.
  destruct z as [ | p | p]; cbn [Z.to_int]; split; try discriminate;
    intros [= E]; apply (DecimalPos.Unsigned.to_uint_nonnil p E).
Qed.

(** The numeral of an integer reads back as that integer. *)
Lemma decimal_parse (z : Z) :
  option_map Z.of_int (NilZero.int_of_string (decimal z)) = Some z.
Proof.
  unfold decimal. destruct (to_int_not_nil z) as [P N].
  rewrite NilZero.isi by assumption. cbn [option_map].
  f_equal. apply DecimalZ.of_to.
Qed.

Lemma decimal_inj (z z' : Z) : decimal z = decimal z' -> z = z'.
Proof.
  intros E. pose proof (decimal_parse z) as P. rewrite E, decimal_parse in P.
  congruence.
Qed.

(** The text that [str] returns for a date built from integers. *)
Lemma str_of_created (d m y : Z) (a : Date) (s : string) :
  create d m y = Ok a -> __str__ a = Ok s ->
  a = mkDate (PInt d) (PInt m) (PInt y)
  /\ 0 <= d < 100 /\ 0 <= m < 100
  /\ s = two_digits d ++ "." ++ two_digits m ++ "." ++ decimal y.
Proof.
  intros E S. apply create_inv in E. destruct E as (-> & Hy & Hm & Hd).
  pose proof (max_day_for_le_31 m y Hm).
  assert (valid_Date (mkDate (PInt d) (PInt m) (PInt y))) as V
      by (unfold valid_Date, valid_triple; cbn; auto).
  destruct (Z.lt_ge_cases y str_bound) as [L | L].
  - rewrite str_of_valid in S; [ | exact V | cbn [_year printable]; lia].
    injection S as <-. repeat split; try lia.
  - rewrite (str_of_long_year _ y V eq_refl L) in S. discriminate S.
Qed.

(** Whenever [str] returns the text of a date built from integers, the text
    determines the date: another such date with the same text is the same
    date, and the characters after the second dot read back as the year. *)
Theorem str_determines_date (d m y d' m' y' : Z) (a b : Date) (s : string) :
  create d m y = Ok a -> create d' m' y' = Ok b -> __str__ a = Ok s ->
  (__str__ b = Ok s -> a = b)
  /\ option_map Z.of_int
       (NilZero.int_of_string (substring 6 (String.length s - 6) s))
     = Some y.
Proof.
  intros Ea Eb Sa.
  destruct (str_of_created _ _ _ _ _ Ea Sa) as (-> & Hd & Hm & ->).
  split.
  - intros Sb.
    destruct (str_of_created _ _ _ _ _ Eb Sb) as (-> & Hd' & Hm' & E).
    unfold two_digits at 1 2 3 4 in E. cbn [append] in E.
    injection E as D1 D2 M1 M2 Y.
    assert (two_digits d = two_digits d') as D
        by (unfold two_digits; congruence).
    assert (two_digits m = two_digits m') as M
        by (unfold two_digits; congruence).
    apply two_digits_inj in D; [ | lia ..].
    apply two_digits_inj in M; [ | lia ..].
    apply decimal_inj in Y. congruence.
  - unfold two_digits. cbn [append String.length substring Nat.sub].
    rewrite Nat.sub_0_r.
    replace (substring 0 (String.length (decimal y)) (decimal y))
      with (decimal y).
    + apply decimal_parse.
    + generalize (decimal y). intros s. induction s as [ | c s IH];
        [reflexivity | cbn [String.length substring]; congruence].
Qed.

Lemma str_determines_date_witness :
  option_map Z.of_int
    (NilZero.int_of_string (substring 6 (String.length "05.04.987" - 6)
                                      "05.04.987"))
  = Some 987.
Proof.
  apply (proj2 (str_determines_date 5 4 987 5 4 987 _ _ "05.04.987"
                                    eq_refl eq_refl
                                    ltac:(vm_compute; reflexivity))).
Defined.

End Text.
